(** * ctest.h: a shallow embedding of the single-header test harness

    The header [inc/ctest/ctest.h] is embedded function by function and macro
    by macro:

    - C [int] values are integers [Z]; the arithmetic the header performs on
      them ([++], [+=], [-]) wraps around at 32 bits ([int_wrap]);
    - C strings are [string]s of bytes; the format strings are the header's
      own, interpreted by [c_format], a model of the printf family for the
      conversions the header uses; the message of an assertion, whose format
      and arguments are the caller's, is rendered by the C library, which the
      development takes as it is ([Libc]);
    - a C function is a computation [C A]: it receives the program's global
      state, returns a value, the text it wrote to [stdout] / [stderr] (in
      order), and the new global state; a test function is such a function
      that returns its [int];
    - a function that may call [exit] returns a [result]: [Normal] with its
      value, or [Exit] with the status of the process;
    - the [TESTS] list is [option (list test)]: [None] when the macro is not
      defined, [Some ts] when it is defined and expands to the [ADD] entries
      [ts] (possibly none);
    - [time], [malloc] and [localtime] answer from an environment record. *)

From Stdlib Require Import ZArith String Ascii List Bool Lia DecimalString Permutation.
Import ListNotations.

Local Open Scope string_scope.
Local Open Scope Z_scope.

(** ** C integers *)

Definition INT_MAX : Z := 2147483647.
Definition INT_MIN : Z := -2147483648.

(** Reduction of an integer to the range of a 32-bit [int]. *)
Definition int_wrap (z : Z) : Z := (z + 2147483648) mod 4294967296 - 2147483648.

Definition int_add (a b : Z) : Z := int_wrap (a + b).
Definition int_sub (a b : Z) : Z := int_wrap (a - b).

(** ** C strings and the printf family *)

(** The characters the header writes as [\n] and [\e]. *)
Definition LF : string := String (ascii_of_nat 10) EmptyString.
Definition ESC : string := String (ascii_of_nat 27) EmptyString.

(** Decimal rendering of an integer, as [%d] and [%ld] print it. *)
Definition dec (z : Z) : string := NilZero.string_of_int (Z.to_int z).

(** An argument the header passes to one of its own format strings. *)
Inductive va_arg : Type :=
| VInt (z : Z)
| VStr (s : string).

(** [c_format fmt va] is the text the printf family produces from a format
    string [fmt] of the header and the arguments [va] the header passes with
    it. The conversions are those of the header's format strings, [%s], [%d],
    [%ld] and [%%]; any other character is copied. A conversion whose
    argument is missing or of the other kind (undefined behaviour in C)
    produces no text. The messages of the callers, which may use any
    conversion, do not go through [c_format] but through [vsprintf]. *)
Fixpoint c_format (fmt : string) (va : list va_arg) : string :=
  match fmt with
  | EmptyString => EmptyString
  | String "%" (String "%" rest) => String "%" (c_format rest va)
  | String "%" (String "s" rest) =>
      match va with
      | VStr s :: va' => s ++ c_format rest va'
      | _ :: va' => c_format rest va'
      | [] => c_format rest []
      end
  | String "%" (String "d" rest)
  | String "%" (String "l" (String "d" rest)) =>
      match va with
      | VInt z :: va' => dec z ++ c_format rest va'
      | _ :: va' => c_format rest va'
      | [] => c_format rest []
      end
  | String c rest => String c (c_format rest va)
  end.

(** [strcmp]: the difference of the first two bytes that differ, read as
    [unsigned char]; 0 when the strings are equal. *)
Fixpoint strcmp (a b : string) : Z :=
  match a, b with
  | EmptyString, EmptyString => 0
  | EmptyString, String y _ => - Z.of_nat (nat_of_ascii y)
  | String x _, EmptyString => Z.of_nat (nat_of_ascii x)
  | String x a', String y b' =>
      if Ascii.eqb x y then strcmp a' b'
      else Z.of_nat (nat_of_ascii x) - Z.of_nat (nat_of_ascii y)
  end.

(** [sub] occurs in [s]. *)
Definition contains (sub s : string) : Prop :=
  exists pre post, s = pre ++ sub ++ post.

(** ** Colour codes (the header's Public Defines) *)

Definition CTEST_GRY : string := ESC ++ "[0;37m".
Definition CTEST_GRYB : string := ESC ++ "[1;37m".
Definition CTEST_RED : string := ESC ++ "[1;31m".
Definition CTEST_GRN : string := ESC ++ "[1;32m".
Definition CTEST_RST : string := ESC ++ "[0m".

(** [strip_sgr s] is [s] as a terminal shows it: every colour sequence, from
    [ESC] to the next [m], is removed. *)
Fixpoint strip_sgr_from (in_seq : bool) (s : string) : string :=
  match s with
  | EmptyString => EmptyString
  | String c rest =>
      if in_seq then strip_sgr_from (negb (Ascii.eqb c "m")) rest
      else if Ascii.eqb c (ascii_of_nat 27) then strip_sgr_from true rest
      else String c (strip_sgr_from false rest)
  end.

Definition strip_sgr : string -> string := strip_sgr_from false.

(** ** Streams and computations *)

Inductive stream : Type := c_stdout | c_stderr.

(** One call of [fprintf] / [printf] / [vfprintf]: the stream and the text. *)
Definition write : Type := (stream * string)%type.

Definition is_stderr (w : write) : bool :=
  match fst w with c_stderr => true | c_stdout => false end.

(** The text a list of writes puts on one stream. *)
Fixpoint text_on (s : stream) (ws : list write) : string :=
  match ws with
  | [] => EmptyString
  | (s', t) :: ws' =>
      match s, s' with
      | c_stdout, c_stdout | c_stderr, c_stderr => t ++ text_on s ws'
      | _, _ => text_on s ws'
      end
  end.

(** ** The environment *)

Record tm : Type := mk_tm { tm_hour : Z; tm_min : Z; tm_sec : Z }.

(** What the C library answers during one run: the three calls of [time] (at
    the start, at the end, inside [ctest__get_timestamp]), whether [malloc]
    returns a buffer, and [localtime]. *)
Record env : Type := mk_env
  { time_at_start : Z;
    time_at_end : Z;
    time_at_stamp : Z;
    malloc_succeeds : bool;
    localtime : Z -> tm }.

(** A function either returns or ends the process through [exit]. *)
Inductive result (A : Type) : Type :=
| Normal (a : A)
| Exit (status : Z).
Arguments Normal {A}.
Arguments Exit {A}.

Definition two_digits (n : Z) : string :=
  if n <? 10 then "0" ++ dec n else dec n.

(** [strftime(buffer, 9, "%H:%M:%S", timeinfo)]. *)
Definition strftime_HMS (t : tm) : string :=
  two_digits (tm_hour t) ++ ":" ++ two_digits (tm_min t) ++ ":" ++ two_digits (tm_sec t).

(** What a run does, in order: it calls test functions and it writes. *)
Inductive event : Type :=
| EvCall (name : string)
| EvWrite (s : stream) (text : string).

(** The part of the C library behind the message of an assertion: the
    variable arguments a caller may pass after [msg] (of any number and C
    type), the empty list of them, and the text [vfprintf] produces from a
    format and such arguments. *)
Class Libc : Type := mk_libc
  { va_list : Type;
    va_none : va_list;
    vsprintf : string -> va_list -> string }.

Section Harness.

(** The global state of the program under test. *)
Variable G : Type.

Context {libc : Libc}.

(** A computation: from the globals to a value, the events it produced (in
    order) and the new globals. *)
Definition Comp (E A : Type) : Type := G -> A * list E * G.

Definition ret {E A : Type} (a : A) : Comp E A := fun g => (a, [], g).

Definition bind {E A B : Type} (m : Comp E A) (k : A -> Comp E B) : Comp E B :=
  fun g =>
    let '(a, o1, g1) := m g in
    let '(b, o2, g2) := k a g1 in
    (b, (o1 ++ o2)%list, g2).

Notation "x <- m ;; k" := (bind m (fun x => k))
  (at level 100, m at next level, right associativity).
Notation "m ;;; k" := (bind m (fun _ => k))
  (at level 100, right associativity).

Definition value_of {E A : Type} (r : A * list E * G) : A := fst (fst r).
Definition events_of {E A : Type} (r : A * list E * G) : list E := snd (fst r).
Definition globals_of {E A : Type} (r : A * list E * G) : G := snd r.

(** A C function of the program: all it can do to the outside is write. *)
Definition C (A : Type) : Type := Comp write A.

Definition fprintf (s : stream) (fmt : string) (va : list va_arg) : C unit :=
  fun g => (tt, [(s, c_format fmt va)], g).

Definition vfprintf (s : stream) (fmt : string) (va : va_list) : C unit :=
  fun g => (tt, [(s, vsprintf fmt va)], g).

Definition printf : string -> list va_arg -> C unit := fprintf c_stdout.

(** ** ctest__assert *)

Definition assert_format : string :=
  "âŒ %s:%d -> %s" ++ LF ++ "ðŸ’¬ Assertion of '%s' failed" ++ LF ++ "ðŸ“ ".

Definition ctest__assert (result : bool) (expression file test_name : string)
    (line : Z) (msg : string) (va : va_list) : C bool :=
  if result then ret true
  else
    fprintf c_stderr assert_format
      [VStr file; VInt line; VStr test_name; VStr expression] ;;;
    vfprintf c_stderr msg va ;;;
    fprintf c_stderr LF [] ;;;
    ret false.

(** ** The assertion macros *)

(** An argument of a macro: its text as the caller wrote it (what [#] turns
    into a string when the argument is handed to it directly), its text after
    the preprocessor expanded the macros in it, and its value in the current
    globals. *)
Record cexpr (T : Type) : Type := mk_cexpr
  { c_text : string;
    c_expanded : string;
    c_eval : G -> T }.
Arguments mk_cexpr {T}.
Arguments c_text {T}.
Arguments c_expanded {T}.
Arguments c_eval {T}.

(** The statements of a test body:
    - [S_assert]: the expansion of an assertion macro at [file]:[line],
      [failed_assertions += !ctest__assert((condition), #condition, __FILE__,
      __FUNCTION__, __LINE__, msg, ...) ? 1 : 0];
    - [S_code]: code of the caller between two assertions; it works on the
      globals and neither names [failed_assertions] nor leaves the function.
    A body is the sequence of these statements in the order the function runs
    through them: an assertion in a loop stands once for each time the loop
    reaches it. *)
Inductive stmt : Type :=
| S_assert (condition : cexpr bool) (file : string) (line : Z)
           (msg : string) (va : G -> va_list)
| S_code (f : G -> G).

Definition CTEST_ASSERT (file : string) (line : Z) (condition : cexpr bool) : stmt :=
  S_assert condition file line "" (fun _ => va_none).

Definition CTEST_ASSERT_MSG (file : string) (line : Z) (condition : cexpr bool)
    (msg : string) (va : G -> va_list) : stmt :=
  S_assert condition file line msg va.

(** The condition [(a) == (b)] as a wrapper macro hands it on, for operands
    of a type whose [==] is [c_eq]: the preprocessor has expanded the operands
    [a] and [b] before it replaces them in the body of the wrapper, so the
    text the base macro receives is made of the expanded operands. *)
Definition cond_eq {V : Type} (c_eq : V -> V -> bool) (a b : cexpr V) : cexpr bool :=
  {| c_text := "(" ++ c_expanded a ++ ") == (" ++ c_expanded b ++ ")";
     c_expanded := "(" ++ c_expanded a ++ ") == (" ++ c_expanded b ++ ")";
     c_eval := fun g => c_eq (c_eval a g) (c_eval b g) |}.

(** The condition [strcmp((a), (b)) == 0] as a wrapper macro hands it on. *)
Definition cond_eq_str (a b : cexpr string) : cexpr bool :=
  {| c_text := "strcmp((" ++ c_expanded a ++ "), (" ++ c_expanded b ++ ")) == 0";
     c_expanded := "strcmp((" ++ c_expanded a ++ "), (" ++ c_expanded b ++ ")) == 0";
     c_eval := fun g => strcmp (c_eval a g) (c_eval b g) =? 0 |}.

(** The condition [(a) == (b)] as a caller writes it by hand in the argument
    of the base macro: there [#condition] takes the text as it is written. *)
Definition written_eq {V : Type} (c_eq : V -> V -> bool) (a b : cexpr V) : cexpr bool :=
  {| c_text := "(" ++ c_text a ++ ") == (" ++ c_text b ++ ")";
     c_expanded := "(" ++ c_expanded a ++ ") == (" ++ c_expanded b ++ ")";
     c_eval := fun g => c_eq (c_eval a g) (c_eval b g) |}.

(** The condition [strcmp((a), (b)) == 0] as a caller writes it by hand. *)
Definition written_eq_str (a b : cexpr string) : cexpr bool :=
  {| c_text := "strcmp((" ++ c_text a ++ "), (" ++ c_text b ++ ")) == 0";
     c_expanded := "strcmp((" ++ c_expanded a ++ "), (" ++ c_expanded b ++ ")) == 0";
     c_eval := fun g => strcmp (c_eval a g) (c_eval b g) =? 0 |}.

Definition CTEST_ASSERT_EQ {V : Type} (c_eq : V -> V -> bool)
    (file : string) (line : Z) (a b : cexpr V) : stmt :=
  CTEST_ASSERT file line (cond_eq c_eq a b).

Definition CTEST_ASSERT_EQ_MSG {V : Type} (c_eq : V -> V -> bool)
    (file : string) (line : Z) (a b : cexpr V)
    (msg : string) (va : G -> va_list) : stmt :=
  CTEST_ASSERT_MSG file line (cond_eq c_eq a b) msg va.

Definition CTEST_ASSERT_EQ_STR (file : string) (line : Z) (a b : cexpr string) : stmt :=
  CTEST_ASSERT file line (cond_eq_str a b).

Definition CTEST_ASSERT_EQ_STR_MSG (file : string) (line : Z) (a b : cexpr string)
    (msg : string) (va : G -> va_list) : stmt :=
  CTEST_ASSERT_MSG file line (cond_eq_str a b) msg va.

(** One statement of the body of the function [fn], on the local
    [failed_assertions]. *)
Definition exec_stmt (fn : string) (s : stmt) (failed_assertions : Z) : C Z :=
  match s with
  | S_assert condition file line msg va =>
      fun g =>
        (ok <- ctest__assert (c_eval condition g) (c_text condition)
                 file fn line msg (va g) ;;
         ret (int_add failed_assertions (if negb ok then 1 else 0))) g
  | S_code f => fun g => (failed_assertions, [], f g)
  end.

Fixpoint exec_body (fn : string) (body : list stmt) (failed_assertions : Z) : C Z :=
  match body with
  | [] => ret failed_assertions
  | s :: body' =>
      failed_assertions' <- exec_stmt fn s failed_assertions ;;
      exec_body fn body' failed_assertions'
  end.

(** ** Tests and the registry *)

(** An entry [ADD(name)] of [TESTS] with the function [test_name] it names. *)
Record test : Type := mk_test
  { t_name : string;
    t_fn : C Z }.

(** [CTEST_TEST(name, body)]: [int failed_assertions = 0; body return
    failed_assertions;] in the function [test_name]. *)
Definition CTEST_TEST (name : string) (body : list stmt) : test :=
  {| t_name := name;
     t_fn := exec_body ("test_" ++ name) body 0 |}.

Definition ctest__get_timestamp (e : env) : C (result string) :=
  if malloc_succeeds e then
    let rawtime := time_at_stamp e in
    let timeinfo := localtime e rawtime in
    ret (Normal (strftime_HMS timeinfo))
  else
    fprintf c_stderr ("ERROR: Could not allocate memory for timestamp!" ++ LF) [] ;;;
    ret (Exit 1).

(** ** The runner *)

Definition lift {A : Type} (m : C A) : Comp event A :=
  fun g => let '(a, ws, g') := m g in (a, map (fun w => EvWrite (fst w) (snd w)) ws, g').

(** The call [test_name()]. *)
Definition call (t : test) : Comp event Z :=
  fun g => let '(r, evs, g') := lift (t_fn t) g in (r, EvCall (t_name t) :: evs, g').

Definition banner_format : string :=
  CTEST_GRY ++ "INFO: Running a total of %d tests." ++ LF ++ LF.

Definition test_failed_format : string :=
  "ðŸ’¥ Test " ++ CTEST_GRYB ++ "%s" ++ CTEST_GRY ++ " failed %d assertions!" ++ LF.

Definition test_passed_format : string :=
  "âœ… Test " ++ CTEST_GRYB ++ "%s" ++ CTEST_GRY ++ " passed." ++ LF.

Definition summary_format : string :=
  CTEST_GRY ++ "    Tests  " ++ CTEST_RED ++ "%d failed" ++ CTEST_GRY ++ " | "
    ++ CTEST_GRN ++ "%d passed" ++ CTEST_GRY ++ " (%d)" ++ LF ++ CTEST_RST.

Definition start_at_format : string :=
  CTEST_GRY ++ " Start at  " ++ CTEST_RST ++ "%s" ++ LF.

Definition duration_format : string :=
  CTEST_GRY ++ " Duration  " ++ CTEST_RST ++ "%lds" ++ LF.

(** [TESTS] under [#define ADD(name) test_count++;]. *)
Fixpoint count_tests (ts : list test) (test_count : Z) : Z :=
  match ts with
  | [] => test_count
  | _ :: ts' => count_tests ts' (int_add test_count 1)
  end.

(** One [ADD(name)] of the running pass, on the locals [fail_test_count] and
    [failed_assertions]. *)
Definition run_test (t : test) (locals : Z * Z) : Comp event (Z * Z) :=
  let '(fail_test_count, _) := locals in
  failed_assertions <- call t ;;
  if failed_assertions >? 0 then
    lift (fprintf c_stderr test_failed_format
            [VStr (t_name t); VInt failed_assertions]) ;;;
    ret (int_add fail_test_count 1, failed_assertions)
  else
    lift (fprintf c_stderr test_passed_format [VStr (t_name t)]) ;;;
    ret (fail_test_count, failed_assertions).

(** [TESTS] under that definition of [ADD]. *)
Fixpoint run_all (ts : list test) (locals : Z * Z) : Comp event (Z * Z) :=
  match ts with
  | [] => ret locals
  | t :: ts' => locals' <- run_test t locals ;; run_all ts' locals'
  end.

Definition ctest__run_tests (e : env) (TESTS : option (list test))
  : Comp event (result bool) :=
  match TESTS with
  | None =>
      lift (fprintf c_stderr ("ERROR: No tests are defined!" ++ LF) []) ;;;
      ret (Exit 1)
  | Some ts =>
      let test_count := count_tests ts 0 in
      lift (printf banner_format [VInt test_count]) ;;;
      let start_time := time_at_start e in
      locals <- run_all ts (0, 0) ;;
      let fail_test_count := fst locals in
      let end_time := time_at_end e in
      lift (printf LF []) ;;;
      let pass_test_count := int_sub test_count fail_test_count in
      lift (printf summary_format
              [VInt fail_test_count; VInt pass_test_count; VInt test_count]) ;;;
      stamp <- lift (ctest__get_timestamp e) ;;
      match stamp with
      | Exit status => ret (Exit status)
      | Normal buffer =>
          lift (printf start_at_format [VStr buffer]) ;;;
          lift (printf duration_format [VInt (end_time - start_time)]) ;;;
          if fail_test_count >? 0 then ret (Normal false)
          else ret (Normal true)
      end
  end.

(** [CTEST_RUN_TESTS()]: the [main] of the test program; its value is the exit
    status of the process. *)
Definition main (e : env) (TESTS : option (list test)) : Comp event Z :=
  r <- ctest__run_tests e TESTS ;;
  match r with
  | Normal ok => ret (if ok then 0 else 1)
  | Exit status => ret status
  end.

End Harness.

Arguments ret {G E A} a.
Arguments bind {G E A B} m k.
Arguments value_of {G E A} r.
Arguments events_of {G E A} r.
Arguments globals_of {G E A} r.
Arguments fprintf {G} s fmt va.
Arguments vfprintf {G libc} s fmt va.
Arguments printf {G} fmt va.
Arguments ctest__assert {G libc} result expression file test_name line msg va.
Arguments mk_cexpr {G T} c_text c_expanded c_eval.
Arguments c_text {G T} c.
Arguments c_expanded {G T} c.
Arguments c_eval {G T} c.
Arguments stmt G {libc}.
Arguments S_assert {G libc} condition file line msg va.
Arguments S_code {G libc} f.
Arguments CTEST_ASSERT {G libc} file line condition.
Arguments CTEST_ASSERT_MSG {G libc} file line condition msg va.
Arguments cond_eq {G V} c_eq a b.
Arguments cond_eq_str {G} a b.
Arguments written_eq {G V} c_eq a b.
Arguments written_eq_str {G} a b.
Arguments CTEST_ASSERT_EQ {G libc V} c_eq file line a b.
Arguments CTEST_ASSERT_EQ_MSG {G libc V} c_eq file line a b msg va.
Arguments CTEST_ASSERT_EQ_STR {G libc} file line a b.
Arguments CTEST_ASSERT_EQ_STR_MSG {G libc} file line a b msg va.
Arguments exec_stmt {G libc} fn s failed_assertions.
Arguments exec_body {G libc} fn body failed_assertions.
Arguments mk_test {G} t_name t_fn.
Arguments t_name {G} t.
Arguments t_fn {G} t.
Arguments CTEST_TEST {G libc} name body.
Arguments ctest__get_timestamp {G} e.
Arguments lift {G A} m.
Arguments call {G} t.
Arguments count_tests {G} ts test_count.
Arguments run_test {G} t locals.
Arguments run_all {G} ts locals.
Arguments ctest__run_tests {G} e TESTS.
Arguments main {G} e TESTS.

(** ** What a run is observed by *)

Fixpoint prefixb (p s : string) : bool :=
  match p, s with
  | EmptyString, _ => true
  | String _ _, EmptyString => false
  | String a p', String b s' => Ascii.eqb a b && prefixb p' s'
  end.

(** Decision of [contains]. *)
Fixpoint occursb (sub s : string) : bool :=
  prefixb sub s
  || match s with
     | EmptyString => false
     | String _ s' => occursb sub s'
     end.

(** The test functions a run called, in order. *)
Fixpoint calls (evs : list event) : list string :=
  match evs with
  | [] => []
  | EvCall name :: evs' => name :: calls evs'
  | EvWrite _ _ :: evs' => calls evs'
  end.

(** The diagnostic of a failed assertion, after the header's format: the
    place, the text of the condition, the message. *)
Definition diagnostic_of (file : string) (line : Z) (test_name expression message : string)
  : string :=
  "âŒ " ++ file ++ ":" ++ dec line ++ " -> " ++ test_name ++ LF
  ++ "ðŸ’¬ Assertion of '" ++ expression ++ "' failed" ++ LF ++ "ðŸ“ "
  ++ message ++ LF.

(** The lines of the run's report. *)
Definition test_failed_line (name : string) (failed_assertions : Z) : string :=
  c_format test_failed_format [VStr name; VInt failed_assertions].

Definition test_passed_line (name : string) : string :=
  c_format test_passed_format [VStr name].

Definition summary_line (failed passed total : Z) : string :=
  c_format summary_format [VInt failed; VInt passed; VInt total].

(** The run printed a summary that a terminal shows as [shown]. *)
Definition summary_reads (shown : string) (evs : list event) : bool :=
  existsb
    (fun ev =>
       match ev with
       | EvWrite c_stdout text => String.eqb (strip_sgr text) ("    Tests  " ++ shown ++ LF)
       | _ => false
       end)
    evs.

(** Some write of the run, on either stream, shows [shown] on a terminal. *)
Definition output_shows (shown : string) (evs : list event) : bool :=
  existsb
    (fun ev =>
       match ev with
       | EvWrite _ text => occursb shown (strip_sgr text)
       | EvCall _ => false
       end)
    evs.

(** The run wrote something to [stdout]. *)
Definition wrote_stdout (evs : list event) : bool :=
  existsb (fun ev => match ev with EvWrite c_stdout _ => true | _ => false end) evs.

Section Observations.

Context {G : Type} {libc : Libc}.

(** The number of assertion calls a body makes from the globals [g] whose
    condition evaluates to false. *)
Fixpoint false_assertions (body : list (stmt G)) (g : G) : nat :=
  match body with
  | [] => 0
  | S_assert condition _ _ _ _ :: body' =>
      ((if c_eval condition g then 0 else 1) + false_assertions body' g)%nat
  | S_code f :: body' => false_assertions body' (f g)
  end.

(** The number of assertion calls a body makes. *)
Fixpoint assertion_calls (body : list (stmt G)) : nat :=
  match body with
  | [] => 0
  | S_assert _ _ _ _ _ :: body' => S (assertion_calls body')
  | S_code _ :: body' => assertion_calls body'
  end.

(** The globals a body leaves. *)
Fixpoint body_globals (body : list (stmt G)) (g : G) : G :=
  match body with
  | [] => g
  | S_assert _ _ _ _ _ :: body' => body_globals body' g
  | S_code f :: body' => body_globals body' (f g)
  end.

(** The values the tests of a registry return when they run one after
    another from the globals [g]. *)
Fixpoint test_results (ts : list (test G)) (g : G) : list Z :=
  match ts with
  | [] => []
  | t :: ts' => value_of (t_fn t g) :: test_results ts' (globals_of (t_fn t g))
  end.

(** The globals the tests of a registry leave when they run one after
    another. *)
Fixpoint tests_globals (ts : list (test G)) (g : G) : G :=
  match ts with
  | [] => g
  | t :: ts' => tests_globals ts' (globals_of (t_fn t g))
  end.

(** The number of tests of a registry that return a positive count. *)
Definition failed_tests (ts : list (test G)) (g : G) : nat :=
  length (filter (fun r => r >? 0) (test_results ts g)).

(** Two executions have the same outcome: the same value (for a statement,
    the counter), the same globals, and writes to the same streams, one for
    one. *)
Definition same_outcome {A : Type} (r r' : A * list write * G) : Prop :=
  value_of r = value_of r'
  /\ globals_of r = globals_of r'
  /\ map fst (events_of r) = map fst (events_of r').

(** The line of the running pass for a test whose function returned [r]. *)
Definition verdict (name : string) (r : Z) : event :=
  if r >? 0 then EvWrite c_stderr (test_failed_line name r)
  else EvWrite c_stderr (test_passed_line name).

(** What a C function wrote, as events of the run. *)
Definition written {A : Type} (r : A * list write * G) : list event :=
  map (fun w => EvWrite (fst w) (snd w)) (events_of r).

(** The events of the running pass over a registry from the globals [g]: for
    each test in turn, the call, what the test wrote, the line of its
    verdict. *)
Fixpoint running_events (ts : list (test G)) (g : G) : list event :=
  match ts with
  | [] => []
  | t :: ts' =>
      (EvCall (t_name t) :: written (t_fn t g)
         ++ [verdict (t_name t) (value_of (t_fn t g))])
      ++ running_events ts' (globals_of (t_fn t g))
  end%list.

(** The diagnostic of a run without [TESTS]. *)
Definition no_tests_diagnostic : event :=
  EvWrite c_stderr ("ERROR: No tests are defined!" ++ LF).

(** A run of [main] failed fast: it wrote the diagnostic, it wrote nothing to
    [stdout] (no banner, no summary), and the exit status is not 0. *)
Definition failed_fast (r : Z * list event * G) : Prop :=
  In no_tests_diagnostic (events_of r)
  /\ wrote_stdout (events_of r) = false
  /\ value_of r <> 0.

End Observations.

(** ** Sample programs *)

Module Samples.

(** A test program without globals. *)
Definition no_globals : Type := unit.

(** The C library of the samples: the callers pass integers and strings and
    use the conversions of [c_format]. *)
#[global] Instance sample_libc : Libc :=
  {| va_list := list va_arg;
     va_none := [];
     vsprintf := c_format |}.

Definition holds : cexpr no_globals bool :=
  mk_cexpr "1 + 1 == 2" "1 + 1 == 2" (fun _ => true).
Definition fails : cexpr no_globals bool :=
  mk_cexpr "1 + 1 == 3" "1 + 1 == 3" (fun _ => false).

(** The operands of [CTEST_ASSERT_EQ(x, EXPECTED)] in a file with
    [#define EXPECTED 2] and a variable [x] that holds 1. *)
Definition operand_x : cexpr no_globals Z := mk_cexpr "x" "x" (fun _ => 1).
Definition operand_EXPECTED : cexpr no_globals Z := mk_cexpr "EXPECTED" "2" (fun _ => 2).

Definition test_a : test no_globals :=
  CTEST_TEST "a" [CTEST_ASSERT "sample.c" 10 holds].

Definition test_b : test no_globals :=
  CTEST_TEST "b" [CTEST_ASSERT "sample.c" 15 holds; CTEST_ASSERT "sample.c" 16 fails].

Definition test_c : test no_globals :=
  CTEST_TEST "c"
    [CTEST_ASSERT "sample.c" 21 fails;
     CTEST_ASSERT_MSG "sample.c" 22 fails "got %d, want %s" (fun _ => [VInt 2; VStr "three"])].

(** A registry of three tests: one passes, one fails one assertion, one fails
    two assertions. *)
Definition registry_abc : list (test no_globals) := [test_a; test_b; test_c].

(** A body of three assertions that all fail. *)
Definition three_failures : list (stmt no_globals) :=
  [CTEST_ASSERT "sample.c" 30 fails;
   CTEST_ASSERT_EQ Z.eqb "sample.c" 31
     (mk_cexpr "x" "x" (fun _ => 1)) (mk_cexpr "2" "2" (fun _ => 2));
   CTEST_ASSERT_EQ_STR "sample.c" 32
     (mk_cexpr "name" "name" (fun _ => "abc")) (mk_cexpr "other" "other" (fun _ => "abd"))].

(** A test function written by hand, [static int test_neg(void) { return -1; }]. *)
Definition test_neg : test no_globals := mk_test "neg" (ret (-1)).

(** A program with one global counter and a test that increments it. *)
Definition bump (name : string) : test Z :=
  CTEST_TEST name
    [S_code (fun n => n + 1);
     CTEST_ASSERT_EQ Z.eqb "sample.c" 40
       (mk_cexpr "calls" "calls" (fun n => n)) (mk_cexpr "1" "1" (fun _ => 1))].

Definition sample_env : env :=
  {| time_at_start := 1000;
     time_at_end := 1003;
     time_at_stamp := 1003;
     malloc_succeeds := true;
     localtime := fun _ => {| tm_hour := 9; tm_min := 5; tm_sec := 30 |} |}.

End Samples.

(** ** Further observations *)

(** The texts a run wrote to [stdout], in order. *)
Fixpoint stdout_writes (evs : list event) : list string :=
  match evs with
  | [] => []
  | EvWrite c_stdout text :: evs' => text :: stdout_writes evs'
  | _ :: evs' => stdout_writes evs'
  end.

(** The texts among the writes of a C function that went to [stdout]. *)
Fixpoint stdout_texts (ws : list write) : list string :=
  match ws with
  | [] => []
  | (c_stdout, text) :: ws' => text :: stdout_texts ws'
  | (c_stderr, _) :: ws' => stdout_texts ws'
  end.

(** The character of a decimal digit. *)
Definition digit (d : Z) : ascii := ascii_of_nat (48 + Z.to_nat d).

(** No byte of the string is the terminator of a C string. *)
Fixpoint no_nul (s : string) : bool :=
  match s with
  | EmptyString => true
  | String c s' => negb (Ascii.eqb c zero) && no_nul s'
  end.

(** The environment [e] with other answers of [time] at the start and at
    the end of the run. *)
Definition with_clocks (e : env) (at_start at_end : Z) : env :=
  {| time_at_start := at_start;
     time_at_end := at_end;
     time_at_stamp := time_at_stamp e;
     malloc_succeeds := malloc_succeeds e;
     localtime := localtime e |}.

Section Sites.

Context {G : Type} {libc : Libc}.

(** The assertion calls of a body whose condition evaluates to false when the
    body runs from the globals [g], in order: file, line, text of the
    condition. *)
Fixpoint failing_assertions (body : list (stmt G)) (g : G)
  : list (string * Z * string) :=
  match body with
  | [] => []
  | S_assert condition file line _ _ :: body' =>
      if c_eval condition g then failing_assertions body' g
      else (file, line, c_text condition) :: failing_assertions body' g
  | S_code f :: body' => failing_assertions body' (f g)
  end.

(** What the test functions of a registry wrote to [stdout] when they ran
    one after another from the globals [g]. *)
Fixpoint tests_stdout (ts : list (test G)) (g : G) : list string :=
  match ts with
  | [] => []
  | t :: ts' =>
      (stdout_texts (events_of (t_fn t g))
         ++ tests_stdout ts' (globals_of (t_fn t g)))%list
  end.

End Sites.

Module Faults.

(** The sample environment, but [malloc] returns [NULL]. *)
Definition no_memory : env :=
  {| time_at_start := 1000;
     time_at_end := 1003;
     time_at_stamp := 1003;
     malloc_succeeds := false;
     localtime := fun _ => {| tm_hour := 9; tm_min := 5; tm_sec := 30 |} |}.

(** A test function written by hand that prints to [stdout] and passes,
    [static int test_chatty(void) { printf("hello"); return 0; }]. *)
Definition test_chatty : test Samples.no_globals :=
  mk_test "chatty" (fun g => (0, [(c_stdout, "hello")], g)).

End Faults.

(** ** Integers, strings, computations: basic facts *)

Lemma int_wrap_small (z : Z) : INT_MIN <= z <= INT_MAX -> int_wrap z = z.
Proof.
  unfold INT_MIN, INT_MAX, int_wrap. intros Hz.
  rewrite Z.mod_small by lia. lia.
Qed.

Lemma int_add_small (a b : Z) :
  INT_MIN <= a + b <= INT_MAX -> int_add a b = a + b.
Proof. apply int_wrap_small. Qed.

Lemma int_sub_small (a b : Z) :
  INT_MIN <= a - b <= INT_MAX -> int_sub a b = a - b.
Proof. apply int_wrap_small. Qed.

Lemma append_assoc (a b c : string) : (a ++ b) ++ c = a ++ b ++ c.
Proof. induction a as [|x a IH]; simpl; [reflexivity | now rewrite IH]. Qed.

Lemma append_empty_r (a : string) : a ++ "" = a.
Proof. induction a as [|x a IH]; simpl; [reflexivity | now rewrite IH]. Qed.

Lemma prefixb_append (p s : string) : prefixb p (p ++ s) = true.
Proof.
  induction p as [|x p IH]; simpl; [reflexivity|].
  now rewrite Ascii.eqb_refl, IH.
Qed.

Lemma occursb_prefix (sub s : string) : prefixb sub s = true -> occursb sub s = true.
Proof. destruct s; simpl; intros ->; reflexivity. Qed.

Lemma contains_occursb (sub s : string) : contains sub s -> occursb sub s = true.
Proof.
  intros (pre & post & ->).
  induction pre as [|x pre IH]; simpl.
  - apply occursb_prefix, prefixb_append.
  - rewrite IH. apply orb_true_r.
Qed.

Lemma strcmp_refl (a : string) : strcmp a a = 0.
Proof.
  induction a as [|x a IH]; simpl; [reflexivity|].
  now rewrite Ascii.eqb_refl.
Qed.

Section Facts.

Context {G : Type} {libc : Libc}.

Lemma value_of_bind {E A B : Type} (m : Comp G E A) (k : A -> Comp G E B) (g : G) :
  value_of (bind m k g) = value_of (k (value_of (m g)) (globals_of (m g))).
Proof.
  unfold bind, value_of, globals_of.
  destruct (m g) as [[a o1] g1]; simpl.
  destruct (k a g1) as [[b o2] g2]; reflexivity.
Qed.

Lemma events_of_bind {E A B : Type} (m : Comp G E A) (k : A -> Comp G E B) (g : G) :
  events_of (bind m k g)
  = (events_of (m g) ++ events_of (k (value_of (m g)) (globals_of (m g))))%list.
Proof.
  unfold bind, value_of, globals_of, events_of.
  destruct (m g) as [[a o1] g1]; simpl.
  destruct (k a g1) as [[b o2] g2]; reflexivity.
Qed.

Lemma globals_of_bind {E A B : Type} (m : Comp G E A) (k : A -> Comp G E B) (g : G) :
  globals_of (bind m k g) = globals_of (k (value_of (m g)) (globals_of (m g))).
Proof.
  unfold bind, value_of, globals_of.
  destruct (m g) as [[a o1] g1]; simpl.
  destruct (k a g1) as [[b o2] g2]; reflexivity.
Qed.

Lemma value_of_lift {A : Type} (m : C G A) (g : G) : value_of (lift m g) = value_of (m g).
Proof. unfold lift, value_of. now destruct (m g) as [[a ws] g']. Qed.

Lemma globals_of_lift {A : Type} (m : C G A) (g : G) :
  globals_of (lift m g) = globals_of (m g).
Proof. unfold lift, globals_of. now destruct (m g) as [[a ws] g']. Qed.

Lemma events_of_lift {A : Type} (m : C G A) (g : G) :
  events_of (lift m g) = map (fun w => EvWrite (fst w) (snd w)) (events_of (m g)).
Proof. unfold lift, events_of. now destruct (m g) as [[a ws] g']. Qed.

Lemma calls_app (evs evs' : list event) : calls (evs ++ evs') = (calls evs ++ calls evs')%list.
Proof.
  induction evs as [|[name|s text] evs IH]; simpl; [reflexivity | now rewrite IH | exact IH].
Qed.

Lemma calls_writes (ws : list write) :
  calls (map (fun w => EvWrite (fst w) (snd w)) ws) = [].
Proof. induction ws as [|w ws IH]; simpl; [reflexivity | exact IH]. Qed.

(** *** ctest__assert *)

Lemma ctest__assert_true (expression file test_name : string) (line : Z)
    (msg : string) (va : va_list) (g : G) :
  ctest__assert true expression file test_name line msg va g = (true, [], g).
Proof. reflexivity. Qed.

Lemma ctest__assert_false (expression file test_name : string) (line : Z)
    (msg : string) (va : va_list) (g : G) :
  ctest__assert false expression file test_name line msg va g
  = (false,
     [(c_stderr,
       "âŒ " ++ file ++ ":" ++ dec line ++ " -> " ++ test_name ++ LF
       ++ "ðŸ’¬ Assertion of '" ++ expression ++ "' failed" ++ LF ++ "ðŸ“ ");
      (c_stderr, vsprintf msg va);
      (c_stderr, LF)],
     g).
Proof. reflexivity. Qed.

Lemma ctest__assert_value (result : bool) (expression file test_name : string)
    (line : Z) (msg : string) (va : va_list) (g : G) :
  value_of (ctest__assert result expression file test_name line msg va g) = result.
Proof. destruct result; reflexivity. Qed.

Lemma ctest__assert_globals (result : bool) (expression file test_name : string)
    (line : Z) (msg : string) (va : va_list) (g : G) :
  globals_of (ctest__assert result expression file test_name line msg va g) = g.
Proof. destruct result; reflexivity. Qed.

End Facts.

(** ** Assertions and test bodies *)

Section Assertions.

Context {G : Type} {libc : Libc}.

Lemma exec_stmt_assert (fn : string) (condition : cexpr G bool) (file : string)
    (line : Z) (msg : string) (va : G -> va_list) (fa : Z) (g : G) :
  exec_stmt fn (S_assert condition file line msg va) fa g
  = (int_add fa (if c_eval condition g then 0 else 1),
     events_of (ctest__assert (c_eval condition g) (c_text condition)
                  file fn line msg (va g) g),
     g).
Proof. simpl. destruct (c_eval condition g); reflexivity. Qed.

Lemma exec_stmt_assert_events (fn : string) (condition : cexpr G bool) (file : string)
    (line : Z) (msg : string) (va : G -> va_list) (fa : Z) (g : G) :
  length (events_of (exec_stmt fn (S_assert condition file line msg va) fa g))
  = (3 * (if c_eval condition g then 0 else 1))%nat.
Proof. rewrite exec_stmt_assert. destruct (c_eval condition g); reflexivity. Qed.

Lemma exec_body_cons (fn : string) (s : stmt G) (body : list (stmt G)) (fa : Z) (g : G) :
  exec_body fn (s :: body) fa g
  = bind (exec_stmt fn s fa) (fun fa' => exec_body fn body fa') g.
Proof. reflexivity. Qed.

Lemma exec_body_value (fn : string) (body : list (stmt G)) :
  forall (fa : Z) (g : G),
    0 <= fa ->
    fa + Z.of_nat (false_assertions body g) <= INT_MAX ->
    value_of (exec_body fn body fa g) = fa + Z.of_nat (false_assertions body g).
Proof.
  unfold INT_MAX.
  induction body as [|s body IH]; intros fa g Hfa Hmax.
  - simpl. unfold value_of; simpl. lia.
  - rewrite exec_body_cons, value_of_bind.
    destruct s as [condition file line msg va | f].
    + rewrite exec_stmt_assert. cbn [value_of globals_of fst snd].
      cbn [false_assertions] in Hmax |- *.
      destruct (c_eval condition g).
      * rewrite int_add_small by (unfold INT_MIN, INT_MAX; lia).
        rewrite IH by lia. lia.
      * rewrite int_add_small by (unfold INT_MIN, INT_MAX; lia).
        rewrite IH by lia. lia.
    + cbn [exec_stmt value_of globals_of fst snd false_assertions] in *.
      apply IH; assumption.
Qed.

Lemma exec_body_events (fn : string) (body : list (stmt G)) :
  forall (fa : Z) (g : G),
    length (events_of (exec_body fn body fa g)) = (3 * false_assertions body g)%nat.
Proof.
  induction body as [|s body IH]; intros fa g.
  - reflexivity.
  - rewrite exec_body_cons, events_of_bind, length_app.
    destruct s as [condition file line msg va | f].
    + rewrite exec_stmt_assert_events, IH, exec_stmt_assert.
      cbn [value_of globals_of fst snd false_assertions]. lia.
    + rewrite IH. reflexivity.
Qed.

Lemma exec_body_globals (fn : string) (body : list (stmt G)) :
  forall (fa : Z) (g : G),
    globals_of (exec_body fn body fa g) = body_globals body g.
Proof.
  induction body as [|s body IH]; intros fa g.
  - reflexivity.
  - rewrite exec_body_cons, globals_of_bind.
    destruct s as [condition file line msg va | f].
    + rewrite exec_stmt_assert. apply IH.
    + apply IH.
Qed.

Lemma no_calls_no_false (body : list (stmt G)) (g : G) :
  assertion_calls body = 0%nat -> false_assertions body g = 0%nat.
Proof.
  revert g. induction body as [|[condition file line msg va | f] body IH]; intros g H.
  - reflexivity.
  - discriminate.
  - simpl. apply IH. exact H.
Qed.

(** C2. The function that [CTEST_TEST] generates returns the number of
    assertion calls of its body whose condition evaluated to false, as long as
    that number is an [int]: every false assertion adds one to the count and
    writes its diagnostic (three writes to [stderr]), whatever the assertions
    before it did; a body without assertion calls returns 0. *)
Theorem CTEST_TEST_counts_false_assertions
    (name : string) (body : list (stmt G)) (g : G) :
  Z.of_nat (false_assertions body g) <= INT_MAX ->
  value_of (t_fn (CTEST_TEST name body) g) = Z.of_nat (false_assertions body g)
  /\ length (events_of (t_fn (CTEST_TEST name body) g))
     = (3 * false_assertions body g)%nat
  /\ globals_of (t_fn (CTEST_TEST name body) g) = body_globals body g
  /\ (assertion_calls body = 0%nat -> value_of (t_fn (CTEST_TEST name body) g) = 0).
Proof.
  intros Hmax. cbn [CTEST_TEST t_fn].
  assert (Hv : value_of (exec_body ("test_" ++ name) body 0 g)
               = Z.of_nat (false_assertions body g)).
  { rewrite exec_body_value by lia. lia. }
  repeat split.
  - exact Hv.
  - apply exec_body_events.
  - apply exec_body_globals.
  - intros Hnone. rewrite Hv, (no_calls_no_false body g Hnone). reflexivity.
Qed.

End Assertions.

Section Evaluator.

Context {G : Type} {libc : Libc}.

(** The text of the diagnostic of a failed assertion. *)
Lemma diagnostic_text (expression file test_name : string) (line : Z)
    (msg : string) (va : va_list) (g : G) :
  text_on c_stderr
    (events_of (ctest__assert false expression file test_name line msg va g))
  = "âŒ " ++ file ++ ":" ++ dec line ++ " -> " ++ test_name ++ LF
    ++ "ðŸ’¬ Assertion of '" ++ expression ++ "' failed" ++ LF ++ "ðŸ“ "
    ++ vsprintf msg va ++ LF.
Proof.
  rewrite ctest__assert_false. cbn [events_of fst snd text_on].
  rewrite append_empty_r, !append_assoc. reflexivity.
Qed.

(** C4. [ctest__assert] on a true condition returns true, writes nothing and
    leaves the globals; on a false condition it returns false after writing to
    [stderr], and to [stderr] only, one diagnostic that contains the file, the
    line, the name of the test, the text of the condition and the message as
    the C library formats it from [msg] and the arguments of the caller,
    whatever conversions [msg] uses. *)
Theorem ctest__assert_behaviour (expression file test_name : string) (line : Z)
    (msg : string) (va : va_list) (g : G) :
  ctest__assert true expression file test_name line msg va g = (true, [], g)
  /\ (let r := ctest__assert false expression file test_name line msg va g in
      let diagnostic := text_on c_stderr (events_of r) in
      value_of r = false
      /\ globals_of r = g
      /\ text_on c_stdout (events_of r) = ""
      /\ diagnostic
         = "âŒ " ++ file ++ ":" ++ dec line ++ " -> " ++ test_name ++ LF
           ++ "ðŸ’¬ Assertion of '" ++ expression ++ "' failed" ++ LF ++ "ðŸ“ "
           ++ vsprintf msg va ++ LF
      /\ contains file diagnostic
      /\ contains (dec line) diagnostic
      /\ contains test_name diagnostic
      /\ contains expression diagnostic
      /\ contains (vsprintf msg va) diagnostic).
Proof.
  split; [reflexivity|].
  cbv zeta. rewrite diagnostic_text.
  repeat split.
  - exists "âŒ ". eexists. reflexivity.
  - exists ("âŒ " ++ file ++ ":"). eexists. rewrite !append_assoc. reflexivity.
  - exists ("âŒ " ++ file ++ ":" ++ dec line ++ " -> "). eexists.
    rewrite !append_assoc. reflexivity.
  - exists ("âŒ " ++ file ++ ":" ++ dec line ++ " -> " ++ test_name ++ LF
            ++ "ðŸ’¬ Assertion of '").
    eexists. rewrite !append_assoc. reflexivity.
  - exists ("âŒ " ++ file ++ ":" ++ dec line ++ " -> " ++ test_name ++ LF
            ++ "ðŸ’¬ Assertion of '" ++ expression ++ "' failed" ++ LF ++ "ðŸ“ ").
    eexists. rewrite !append_assoc. reflexivity.
Qed.

(** C9. [ctest__assert] leaves the globals as they are and writes to
    [stderr] only; the counter [failed_assertions] is not among the things it
    works on. The assertion macro adds to the counter of its test, by one when
    [ctest__assert] returned false and by nothing when it returned true, and
    does nothing else besides what [ctest__assert] did. *)
Theorem ctest__assert_frame (result : bool) (expression file test_name : string)
    (line : Z) (msg : string) (va : va_list) (g : G) :
  globals_of (ctest__assert result expression file test_name line msg va g) = g
  /\ forallb is_stderr
       (events_of (ctest__assert result expression file test_name line msg va g))
     = true
  /\ forall (condition : cexpr G bool) (args : G -> va_list) (fa : Z),
       let r := ctest__assert (c_eval condition g) (c_text condition)
                  file test_name line msg (args g) g in
       exec_stmt test_name (S_assert condition file line msg args) fa g
       = (int_add fa (if value_of r then 0 else 1), events_of r, globals_of r).
Proof.
  split; [apply ctest__assert_globals|].
  split; [destruct result; reflexivity|].
  intros condition args fa. cbv zeta.
  rewrite exec_stmt_assert, ctest__assert_value, ctest__assert_globals.
  reflexivity.
Qed.

(** The diagnostic of a failed assertion as a whole. *)
Lemma failed_assertion_text (condition : cexpr G bool) (file : string) (line : Z)
    (msg : string) (va : G -> va_list) (fn : string) (fa : Z) (g : G) :
  text_on c_stderr (events_of (exec_stmt fn (S_assert condition file line msg va) fa g))
  = if c_eval condition g then ""
    else diagnostic_of file line fn (c_text condition) (vsprintf msg (va g)).
Proof.
  rewrite exec_stmt_assert. cbn [events_of fst snd].
  destruct (c_eval condition g); [reflexivity | apply diagnostic_text].
Qed.

Lemma same_condition_same_outcome (condition condition' : cexpr G bool)
    (file : string) (line : Z) (msg : string) (va : G -> va_list)
    (fn : string) (fa : Z) (g : G) :
  c_eval condition g = c_eval condition' g ->
  same_outcome (exec_stmt fn (S_assert condition file line msg va) fa g)
               (exec_stmt fn (S_assert condition' file line msg va) fa g).
Proof.
  intros Heval. rewrite !exec_stmt_assert, Heval. unfold same_outcome.
  cbn [value_of events_of globals_of fst snd].
  destruct (c_eval condition' g); repeat split.
Qed.

(** C8, as the header has it. [CTEST_ASSERT_EQ(a, b)] has the outcome of
    [CTEST_ASSERT] on the hand-written condition [(a) == (b)], and
    [CTEST_ASSERT_EQ_STR(a, b)] that of [CTEST_ASSERT] on
    [strcmp((a), (b)) == 0]; the [_MSG] forms have that of [CTEST_ASSERT_MSG]
    on these conditions: the same counter, the same globals, and a diagnostic
    on [stderr] in the same cases, namely when the operands differ. The
    diagnostic of a wrapper gives the condition with the operands as the
    preprocessor expanded them, that of the base assertion as they are
    written; when the operands hold no macro, wrapper and base assertion do
    the same in all respects. *)
Theorem equality_wrappers_have_the_outcome_of_base_assertions
    (V : Type) (c_eq : V -> V -> bool) (file : string) (line : Z)
    (a b : cexpr G V) (sa sb : cexpr G string)
    (msg : string) (va : G -> va_list) (fn : string) (fa : Z) (g : G) :
  let eq := exec_stmt fn (CTEST_ASSERT_EQ c_eq file line a b) fa g in
  let eq_base := exec_stmt fn (CTEST_ASSERT file line (written_eq c_eq a b)) fa g in
  let eq_msg := exec_stmt fn (CTEST_ASSERT_EQ_MSG c_eq file line a b msg va) fa g in
  let eq_msg_base :=
    exec_stmt fn (CTEST_ASSERT_MSG file line (written_eq c_eq a b) msg va) fa g in
  let str := exec_stmt fn (CTEST_ASSERT_EQ_STR file line sa sb) fa g in
  let str_base := exec_stmt fn (CTEST_ASSERT file line (written_eq_str sa sb)) fa g in
  let str_msg := exec_stmt fn (CTEST_ASSERT_EQ_STR_MSG file line sa sb msg va) fa g in
  let str_msg_base :=
    exec_stmt fn (CTEST_ASSERT_MSG file line (written_eq_str sa sb) msg va) fa g in
  let expanded := "(" ++ c_expanded a ++ ") == (" ++ c_expanded b ++ ")" in
  let expanded_str :=
    "strcmp((" ++ c_expanded sa ++ "), (" ++ c_expanded sb ++ ")) == 0" in
  (same_outcome eq eq_base /\ same_outcome eq_msg eq_msg_base
   /\ same_outcome str str_base /\ same_outcome str_msg str_msg_base)
  /\ (value_of eq = int_add fa (if c_eq (c_eval a g) (c_eval b g) then 0 else 1)
      /\ value_of str
         = int_add fa (if strcmp (c_eval sa g) (c_eval sb g) =? 0 then 0 else 1))
  /\ (text_on c_stderr (events_of eq)
      = (if c_eq (c_eval a g) (c_eval b g) then ""
         else diagnostic_of file line fn expanded (vsprintf "" va_none))
      /\ text_on c_stderr (events_of eq_msg)
         = (if c_eq (c_eval a g) (c_eval b g) then ""
            else diagnostic_of file line fn expanded (vsprintf msg (va g)))
      /\ text_on c_stderr (events_of str)
         = (if strcmp (c_eval sa g) (c_eval sb g) =? 0 then ""
            else diagnostic_of file line fn expanded_str (vsprintf "" va_none))
      /\ text_on c_stderr (events_of str_msg)
         = (if strcmp (c_eval sa g) (c_eval sb g) =? 0 then ""
            else diagnostic_of file line fn expanded_str (vsprintf msg (va g))))
  /\ (c_expanded a = c_text a -> c_expanded b = c_text b ->
      eq = eq_base /\ eq_msg = eq_msg_base)
  /\ (c_expanded sa = c_text sa -> c_expanded sb = c_text sb ->
      str = str_base /\ str_msg = str_msg_base).
Proof.
  cbv zeta.
  unfold CTEST_ASSERT_EQ, CTEST_ASSERT_EQ_MSG, CTEST_ASSERT_EQ_STR,
    CTEST_ASSERT_EQ_STR_MSG, CTEST_ASSERT, CTEST_ASSERT_MSG.
  split; [|split; [|split; [|split]]].
  - repeat split; apply same_condition_same_outcome; reflexivity.
  - rewrite !exec_stmt_assert. split; reflexivity.
  - rewrite !failed_assertion_text. repeat split.
  - intros Ha Hb. unfold cond_eq, written_eq. rewrite Ha, Hb. split; reflexivity.
  - intros Ha Hb. unfold cond_eq_str, written_eq_str. rewrite Ha, Hb. split; reflexivity.
Qed.

End Evaluator.

(** ** The runner *)

Lemma filter_length_Permutation {A : Type} (f : A -> bool) (l l' : list A) :
  Permutation l l' -> length (filter f l) = length (filter f l').
Proof.
  induction 1 as [|x l l' _ IH|x y l|l l' l'' _ IH1 _ IH2]; simpl.
  - reflexivity.
  - destruct (f x); simpl; now rewrite IH.
  - destruct (f x), (f y); reflexivity.
  - now rewrite IH1.
Qed.

Section Runner.

Context {G : Type} {libc : Libc}.

Lemma test_results_length (ts : list (test G)) :
  forall g : G, length (test_results ts g) = length ts.
Proof. induction ts as [|t ts IH]; intros g; simpl; [reflexivity | now rewrite IH]. Qed.

Lemma failed_tests_le_length (ts : list (test G)) (g : G) :
  (failed_tests ts g <= length ts)%nat.
Proof.
  unfold failed_tests. rewrite <- (test_results_length ts g). apply filter_length_le.
Qed.

Lemma failed_tests_cons (t : test G) (ts : list (test G)) (g : G) :
  failed_tests (t :: ts) g
  = ((if value_of (t_fn t g) >? 0 then 1 else 0)
     + failed_tests ts (globals_of (t_fn t g)))%nat.
Proof.
  unfold failed_tests. simpl. destruct (value_of (t_fn t g) >? 0); reflexivity.
Qed.

Lemma count_tests_length (ts : list (test G)) :
  forall c : Z,
    0 <= c -> c + Z.of_nat (length ts) <= INT_MAX ->
    count_tests ts c = c + Z.of_nat (length ts).
Proof.
  unfold INT_MAX.
  induction ts as [|t ts IH]; intros c Hc Hmax; cbn [count_tests length] in *.
  - lia.
  - rewrite int_add_small by (unfold INT_MIN, INT_MAX; lia).
    rewrite IH by lia. lia.
Qed.

(** One [ADD(name)] of the running pass. *)
Lemma run_test_eq (t : test G) (fc fa : Z) (g : G) :
  run_test t (fc, fa) g
  = ((if value_of (t_fn t g) >? 0 then int_add fc 1 else fc, value_of (t_fn t g)),
     (EvCall (t_name t) :: written (t_fn t g)
        ++ [verdict (t_name t) (value_of (t_fn t g))])%list,
     globals_of (t_fn t g)).
Proof.
  unfold run_test, call, lift, bind, verdict, written, value_of, events_of, globals_of.
  destruct (t_fn t g) as [[r ws] g']. cbn [fst snd].
  destruct (r >? 0); cbn [fprintf ret app map fst snd]; reflexivity.
Qed.

Lemma run_all_cons (t : test G) (ts : list (test G)) (locals : Z * Z) (g : G) :
  run_all (t :: ts) locals g
  = bind (run_test t locals) (fun locals' => run_all ts locals') g.
Proof. reflexivity. Qed.

Lemma run_all_events (ts : list (test G)) :
  forall (locals : Z * Z) (g : G),
    events_of (run_all ts locals g) = running_events ts g.
Proof.
  induction ts as [|t ts IH]; intros [fc fa] g.
  - reflexivity.
  - rewrite run_all_cons, events_of_bind, run_test_eq.
    cbn [events_of value_of globals_of fst snd running_events].
    f_equal. apply IH.
Qed.

Lemma run_all_globals (ts : list (test G)) :
  forall (locals : Z * Z) (g : G),
    globals_of (run_all ts locals g) = tests_globals ts g.
Proof.
  induction ts as [|t ts IH]; intros [fc fa] g.
  - reflexivity.
  - rewrite run_all_cons, globals_of_bind, run_test_eq.
    cbn [events_of value_of globals_of fst snd tests_globals]. apply IH.
Qed.

Lemma run_all_fail_count (ts : list (test G)) :
  forall (fc fa : Z) (g : G),
    0 <= fc ->
    fc + Z.of_nat (failed_tests ts g) <= INT_MAX ->
    fst (value_of (run_all ts (fc, fa) g)) = fc + Z.of_nat (failed_tests ts g).
Proof.
  unfold INT_MAX.
  induction ts as [|t ts IH]; intros fc fa g Hfc Hmax.
  - unfold failed_tests. simpl. lia.
  - rewrite run_all_cons, value_of_bind, run_test_eq.
    cbn [events_of value_of globals_of fst snd].
    rewrite failed_tests_cons in Hmax |- *.
    destruct (value_of (t_fn t g) >? 0).
    + rewrite int_add_small by (unfold INT_MIN, INT_MAX; lia).
      rewrite IH by lia. lia.
    + rewrite IH by lia. lia.
Qed.

Lemma calls_written {A : Type} (r : A * list write * G) : calls (written r) = [].
Proof. apply calls_writes. Qed.

Lemma calls_running_events (ts : list (test G)) :
  forall g : G, calls (running_events ts g) = map t_name ts.
Proof.
  induction ts as [|t ts IH]; intros g.
  - reflexivity.
  - cbn [running_events map]. rewrite calls_app. cbn [calls].
    rewrite calls_app, calls_written, IH.
    unfold verdict. destruct (value_of (t_fn t g) >? 0); reflexivity.
Qed.

(** The run of a defined [TESTS] list, as a whole. *)
Lemma run_tests_defined (e : env) (ts : list (test G)) (g : G) :
  let n := count_tests ts 0 in
  let loop := run_all ts (0, 0) g in
  let fc := fst (value_of loop) in
  ctest__run_tests e (Some ts) g
  = (if malloc_succeeds e then Normal (negb (fc >? 0)) else Exit 1,
     (EvWrite c_stdout (c_format banner_format [VInt n])
        :: events_of loop
        ++ EvWrite c_stdout LF
        :: EvWrite c_stdout (summary_line fc (int_sub n fc) n)
        :: (if malloc_succeeds e then
              [EvWrite c_stdout
                 (c_format start_at_format
                    [VStr (strftime_HMS (localtime e (time_at_stamp e)))]);
               EvWrite c_stdout
                 (c_format duration_format [VInt (time_at_end e - time_at_start e)])]
            else
              [EvWrite c_stderr
                 ("ERROR: Could not allocate memory for timestamp!" ++ LF)]))%list,
     globals_of loop).
Proof.
  cbv zeta.
  unfold ctest__run_tests, bind, lift, printf, fprintf, ctest__get_timestamp,
    value_of, events_of, globals_of.
  destruct (run_all ts (0, 0) g) as [[[fc fa] evs] g'].
  cbn [fst snd map app].
  destruct (malloc_succeeds e); cbn [ret bind fst snd map app];
    [destruct (fc >? 0)|]; reflexivity.
Qed.

Lemma main_value (e : env) (TESTS : option (list (test G))) (g : G) :
  value_of (main e TESTS g)
  = match value_of (ctest__run_tests e TESTS g) with
    | Normal ok => if ok then 0 else 1
    | Exit status => status
    end.
Proof.
  unfold main. rewrite value_of_bind.
  destruct (value_of (ctest__run_tests e TESTS g)); reflexivity.
Qed.

Lemma main_events (e : env) (TESTS : option (list (test G))) (g : G) :
  events_of (main e TESTS g) = events_of (ctest__run_tests e TESTS g).
Proof.
  unfold main. rewrite events_of_bind.
  destruct (value_of (ctest__run_tests e TESTS g));
    cbn [ret events_of fst snd]; apply app_nil_r.
Qed.

End Runner.

Section Run.

Context {G : Type} {libc : Libc}.

(** C1. A run of a defined [TESTS] list whose timestamp buffer could be
    allocated returns: [ctest__run_tests] returns true if and only if no test
    failed, and false otherwise; the [main] of [CTEST_RUN_TESTS] ends the
    process with status 0 in the first case and 1 in the second. *)
Theorem run_tests_true_iff_no_failed_test
    (e : env) (ts : list (test G)) (g : G) :
  malloc_succeeds e = true ->
  Z.of_nat (failed_tests ts g) <= INT_MAX ->
  value_of (ctest__run_tests e (Some ts) g) = Normal (Nat.eqb (failed_tests ts g) 0)
  /\ (value_of (ctest__run_tests e (Some ts) g) = Normal true
      <-> failed_tests ts g = 0%nat)
  /\ (value_of (ctest__run_tests e (Some ts) g) = Normal false
      <-> failed_tests ts g <> 0%nat)
  /\ value_of (main e (Some ts) g) = (if Nat.eqb (failed_tests ts g) 0 then 0 else 1).
Proof.
  intros Hmalloc Hmax.
  assert (Hrun : value_of (ctest__run_tests e (Some ts) g)
                 = Normal (Nat.eqb (failed_tests ts g) 0)).
  { rewrite run_tests_defined. cbn [value_of fst]. rewrite Hmalloc.
    rewrite run_all_fail_count by lia. f_equal.
    destruct (failed_tests ts g) as [|k]; [reflexivity|].
    cbn [Nat.eqb]. destruct (Z.gtb_spec (0 + Z.of_nat (S k)) 0); [reflexivity | lia]. }
  split; [exact Hrun|].
  rewrite main_value, Hrun.
  destruct (failed_tests ts g) as [|k]; cbn [Nat.eqb];
    (split; [|split]); try reflexivity; split; congruence.
Qed.

(** C3, as the header has it. When [TESTS] is not defined, the runner writes
    the diagnostic that no tests are defined to [stderr] and ends the process
    with status 1; it calls nothing and writes nothing to [stdout], so neither
    banner nor summary. A [TESTS] list that is defined and has no entry does
    not fail fast: the run writes no such diagnostic, prints the banner and
    the summary of zero tests, and goes on to the timestamp; it returns true,
    for the exit status 0, when the buffer of the timestamp is allocated, and
    ends with status 1 on the allocation error when it is not. *)
Theorem only_undefined_TESTS_fails_fast (e : env) (g : G) :
  (ctest__run_tests e None g = (Exit 1, [no_tests_diagnostic], g)
   /\ main e None g = (1, [no_tests_diagnostic], g)
   /\ failed_fast (main e None g))
  /\ (~ failed_fast (main e (Some []) g)
      /\ ~ In no_tests_diagnostic (events_of (main e (Some []) g))
      /\ summary_reads "0 failed | 0 passed (0)" (events_of (main e (Some []) g)) = true
      /\ value_of (ctest__run_tests e (Some []) g)
         = (if malloc_succeeds e then Normal true else Exit 1)
      /\ value_of (main e (Some []) g) = (if malloc_succeeds e then 0 else 1)).
Proof.
  split.
  - repeat split.
    + left. reflexivity.
    + discriminate.
  - unfold failed_fast. rewrite main_value, !main_events, run_tests_defined.
    cbn [value_of events_of fst snd run_all ret app].
    split; [|split; [|split; [|split]]].
    + intros (_ & Hstdout & _).
      cbn [wrote_stdout existsb orb] in Hstdout. discriminate Hstdout.
    + intros [H | [H | [H | H]]]; try discriminate H.
      destruct (malloc_succeeds e); cbn [In] in H;
        repeat (destruct H as [H | H]; [discriminate H|]); exact H.
    + reflexivity.
    + destruct (malloc_succeeds e); reflexivity.
    + destruct (malloc_succeeds e); reflexivity.
Qed.

(** C6. The runner calls the test functions of the registry once each, in the
    order of the registry, each from the globals the one before left; between
    the banner and the report it produces, test after test, the call, what
    the test wrote and the line of its verdict, whatever the tests returned;
    the report comes after the events of the last test and calls nothing. *)
Theorem runner_calls_registry_in_order (e : env) (ts : list (test G)) (g : G) :
  calls (events_of (ctest__run_tests e (Some ts) g)) = map t_name ts
  /\ globals_of (ctest__run_tests e (Some ts) g) = tests_globals ts g
  /\ exists report : list event,
       events_of (ctest__run_tests e (Some ts) g)
       = (EvWrite c_stdout (c_format banner_format [VInt (count_tests ts 0)])
            :: running_events ts g ++ report)%list
       /\ calls (running_events ts g) = map t_name ts
       /\ calls report = []
       /\ hd_error report = Some (EvWrite c_stdout LF).
Proof.
  rewrite run_tests_defined. cbn [events_of globals_of value_of fst snd].
  rewrite run_all_events, run_all_globals.
  split; [|split; [reflexivity|]].
  - cbn [calls]. rewrite calls_app, calls_running_events.
    destruct (malloc_succeeds e); cbn [calls]; apply app_nil_r.
  - eexists. split; [reflexivity|].
    split; [apply calls_running_events|].
    split; [|reflexivity].
    destruct (malloc_succeeds e); reflexivity.
Qed.

(** C10. A test function that returns zero or less, a negative value
    included, gets the passed line and leaves the count of failed tests as it
    was; one that returns more than zero gets the failed line with the value
    it returned and adds one to the count. *)
Theorem only_positive_return_is_failed (t : test G) (fc fa : Z) (g : G) :
  (value_of (t_fn t g) <= 0 ->
   value_of (run_test t (fc, fa) g) = (fc, value_of (t_fn t g))
   /\ events_of (run_test t (fc, fa) g)
      = (EvCall (t_name t) :: written (t_fn t g)
           ++ [EvWrite c_stderr (test_passed_line (t_name t))])%list)
  /\ (value_of (t_fn t g) > 0 ->
      value_of (run_test t (fc, fa) g) = (int_add fc 1, value_of (t_fn t g))
      /\ events_of (run_test t (fc, fa) g)
         = (EvCall (t_name t) :: written (t_fn t g)
              ++ [EvWrite c_stderr
                    (test_failed_line (t_name t) (value_of (t_fn t g)))])%list).
Proof.
  rewrite run_test_eq. cbn [value_of events_of fst snd]. unfold verdict.
  split; intros Hr.
  - destruct (Z.gtb_spec (value_of (t_fn t g)) 0); [lia|]. split; reflexivity.
  - destruct (Z.gtb_spec (value_of (t_fn t g)) 0); [|lia]. split; reflexivity.
Qed.

(** C7, as the header has it. For a test function that returns a count, that
    is a value that is not negative: when the value is not zero the runner
    writes the failed line, with the name and the value, and adds one to the
    count of failed tests; when it is zero the runner writes the passed line
    and leaves the count. *)
Theorem nonzero_count_is_failed (t : test G) (fc fa : Z) (g : G) :
  0 <= value_of (t_fn t g) ->
  (value_of (t_fn t g) <> 0 ->
   value_of (run_test t (fc, fa) g) = (int_add fc 1, value_of (t_fn t g))
   /\ events_of (run_test t (fc, fa) g)
      = (EvCall (t_name t) :: written (t_fn t g)
           ++ [EvWrite c_stderr
                 (test_failed_line (t_name t) (value_of (t_fn t g)))])%list)
  /\ (value_of (t_fn t g) = 0 ->
      value_of (run_test t (fc, fa) g) = (fc, 0)
      /\ events_of (run_test t (fc, fa) g)
         = (EvCall (t_name t) :: written (t_fn t g)
              ++ [EvWrite c_stderr (test_passed_line (t_name t))])%list).
Proof.
  intros Hcount. rewrite run_test_eq. cbn [value_of events_of fst snd]. unfold verdict.
  split; intros Hr.
  - destruct (Z.gtb_spec (value_of (t_fn t g)) 0); [|lia]. split; reflexivity.
  - rewrite Hr. split; reflexivity.
Qed.

End Run.

Section Report.

Context {G : Type} {libc : Libc}.

(** C5, as the header has it. The report of a run starts with an empty line
    and the summary of failed, passed and total, where total is the number of
    tests of the registry, failed the number of those that returned a positive
    count and passed the difference of the two. For a registry of three tests
    of which one passes, one fails one assertion and one fails two, two tests
    failed: the summary reads [2 failed | 1 passed (3)] and the exit status of
    the process is 1. *)
Theorem summary_reports_failed_passed_total
    (e : env) (ts : list (test G)) (g : G) :
  Z.of_nat (length ts) <= INT_MAX ->
  let total := Z.of_nat (length ts) in
  let failed := Z.of_nat (failed_tests ts g) in
  (exists (banner : string) (rest : list event),
     events_of (ctest__run_tests e (Some ts) g)
     = (EvWrite c_stdout banner :: running_events ts g
          ++ EvWrite c_stdout LF
          :: EvWrite c_stdout (summary_line failed (total - failed) total)
          :: rest)%list)
  /\ (Permutation (test_results ts g) [0; 1; 2] ->
      summary_reads "2 failed | 1 passed (3)" (events_of (main e (Some ts) g)) = true
      /\ value_of (main e (Some ts) g) = 1).
Proof.
  intros Hmax. cbv zeta.
  pose proof (failed_tests_le_length ts g) as Hle.
  assert (Hn : count_tests ts 0 = Z.of_nat (length ts)).
  { rewrite count_tests_length; lia. }
  assert (Hf : fst (value_of (run_all ts (0, 0) g)) = Z.of_nat (failed_tests ts g)).
  { rewrite run_all_fail_count; lia. }
  assert (Hev : exists (banner : string) (rest : list event),
             events_of (ctest__run_tests e (Some ts) g)
             = (EvWrite c_stdout banner :: running_events ts g
                  ++ EvWrite c_stdout LF
                  :: EvWrite c_stdout
                       (summary_line (Z.of_nat (failed_tests ts g))
                          (Z.of_nat (length ts) - Z.of_nat (failed_tests ts g))
                          (Z.of_nat (length ts)))
                  :: rest)%list).
  { rewrite run_tests_defined. cbn [events_of fst snd].
    rewrite run_all_events, Hn, Hf.
    rewrite int_sub_small by (unfold INT_MIN, INT_MAX in *; lia).
    eexists. eexists. reflexivity. }
  split; [exact Hev|].
  intros Hperm.
  assert (Hlen : length ts = 3%nat).
  { rewrite <- (test_results_length ts g). apply (Permutation_length Hperm). }
  assert (Hfailed : failed_tests ts g = 2%nat).
  { unfold failed_tests.
    rewrite (filter_length_Permutation (fun r => r >? 0) _ _ Hperm). reflexivity. }
  split.
  - rewrite main_events. destruct Hev as (banner & rest & ->).
    rewrite Hlen, Hfailed. unfold summary_reads.
    apply existsb_exists.
    exists (EvWrite c_stdout (summary_line 2 (3 - 2) 3)). split.
    + right. apply in_or_app. right. right. left. reflexivity.
    + vm_compute. reflexivity.
  - rewrite main_value, run_tests_defined. cbn [value_of fst].
    rewrite Hf, Hfailed. destruct (malloc_succeeds e); reflexivity.
Qed.

End Report.

(** ** The claims on the sample programs *)

(** Tests run from the globals the tests before them left: the second of two
    tests that each count their call and expect the count to be 1 fails. *)
Example bump_twice :
  test_results [Samples.bump "first"; Samples.bump "second"] 0 = [0; 1]
  /\ calls (events_of (main Samples.sample_env
                         (Some [Samples.bump "first"; Samples.bump "second"]) 0))
     = ["first"; "second"]
  /\ globals_of (main Samples.sample_env
                   (Some [Samples.bump "first"; Samples.bump "second"]) 0) = 2.
Proof. repeat split. Qed.

(** A registry of three passing tests: the summary reads
    [0 failed | 3 passed (3)] and the process ends with status 0. *)
Example all_tests_pass :
  summary_reads "0 failed | 3 passed (3)"
    (events_of (main Samples.sample_env
                  (Some [Samples.test_a; Samples.test_a; Samples.test_a]) tt)) = true
  /\ value_of (main Samples.sample_env
                 (Some [Samples.test_a; Samples.test_a; Samples.test_a]) tt) = 0.
Proof. split; vm_compute; reflexivity. Qed.

(** C1 on the sample registry: two of its tests fail, the runner returns
    false and the process ends with status 1. *)
Lemma run_tests_true_iff_no_failed_test_sample :
  malloc_succeeds Samples.sample_env = true
  /\ Z.of_nat (failed_tests Samples.registry_abc tt) <= INT_MAX
  /\ value_of (ctest__run_tests Samples.sample_env (Some Samples.registry_abc) tt)
     = Normal false
  /\ value_of (main Samples.sample_env (Some Samples.registry_abc) tt) = 1.
Proof.
  assert (Hmax : Z.of_nat (failed_tests Samples.registry_abc tt) <= INT_MAX).
  { vm_compute. discriminate. }
  destruct (run_tests_true_iff_no_failed_test
              Samples.sample_env Samples.registry_abc tt eq_refl Hmax)
    as (Hrun & _ & _ & Hmain).
  split; [reflexivity|]. split; [exact Hmax|]. split; [exact Hrun | exact Hmain].
Defined.

(** C2 on a body of three assertions that all fail: the test returns 3. *)
Lemma CTEST_TEST_counts_false_assertions_sample :
  Z.of_nat (false_assertions Samples.three_failures tt) <= INT_MAX
  /\ value_of (t_fn (CTEST_TEST "three" Samples.three_failures) tt) = 3
  /\ length (events_of (t_fn (CTEST_TEST "three" Samples.three_failures) tt)) = 9%nat.
Proof.
  assert (Hmax : Z.of_nat (false_assertions Samples.three_failures tt) <= INT_MAX).
  { vm_compute. discriminate. }
  destruct (CTEST_TEST_counts_false_assertions "three" Samples.three_failures tt Hmax)
    as (Hvalue & Hevents & _).
  split; [exact Hmax|]. split; [exact Hvalue | exact Hevents].
Defined.

(** C3 as the specification states it fails on a [TESTS] list that is defined
    and has no entry: the run prints the summary of zero tests, returns true,
    and the process ends with status 0. *)
Lemma empty_TESTS_reports_success :
  ~ failed_fast (main Samples.sample_env (Some (@nil (test Samples.no_globals))) tt)
  /\ value_of (ctest__run_tests Samples.sample_env
                 (Some (@nil (test Samples.no_globals))) tt) = Normal true
  /\ value_of (main Samples.sample_env (Some (@nil (test Samples.no_globals))) tt) = 0
  /\ summary_reads "0 failed | 0 passed (0)"
       (events_of (main Samples.sample_env (Some (@nil (test Samples.no_globals))) tt))
     = true.
Proof.
  split; [|repeat split].
  intros (_ & _ & Hstatus). apply Hstatus. reflexivity.
Qed.

(** C5 as the specification states it fails on the sample registry, whose
    tests return 0, 1 and 2: the summary does not read
    [1 failed | 2 passed (3)]. *)
Lemma summary_of_sample_registry_is_not_1_failed :
  test_results Samples.registry_abc tt = [0; 1; 2]
  /\ summary_reads "1 failed | 2 passed (3)"
       (events_of (main Samples.sample_env (Some Samples.registry_abc) tt))
     = false
  /\ output_shows "1 failed | 2 passed (3)"
       (events_of (main Samples.sample_env (Some Samples.registry_abc) tt))
     = false
  /\ output_shows "2 failed | 1 passed (3)"
       (events_of (main Samples.sample_env (Some Samples.registry_abc) tt))
     = true.
Proof. repeat split; vm_compute; reflexivity. Qed.

(** C5 on the sample registry: the summary reads [2 failed | 1 passed (3)]. *)
Lemma summary_reports_failed_passed_total_sample :
  Z.of_nat (length Samples.registry_abc) <= INT_MAX
  /\ Permutation (test_results Samples.registry_abc tt) [0; 1; 2]
  /\ summary_reads "2 failed | 1 passed (3)"
       (events_of (main Samples.sample_env (Some Samples.registry_abc) tt)) = true
  /\ value_of (main Samples.sample_env (Some Samples.registry_abc) tt) = 1.
Proof.
  assert (Hmax : Z.of_nat (length Samples.registry_abc) <= INT_MAX).
  { vm_compute. discriminate. }
  assert (Hperm : Permutation (test_results Samples.registry_abc tt) [0; 1; 2]).
  { apply Permutation_refl. }
  destruct (summary_reports_failed_passed_total
              Samples.sample_env Samples.registry_abc tt Hmax)
    as (_ & Hsample).
  split; [exact Hmax|]. split; [exact Hperm|]. exact (Hsample Hperm).
Defined.

(** C7 as the specification states it fails on a test function that returns
    -1: the value is not zero, yet the runner writes the passed line and
    leaves the count of failed tests at 0, and a run of this test alone ends
    with status 0. *)
Lemma negative_return_is_not_failed :
  value_of (t_fn Samples.test_neg tt) <> 0
  /\ run_test Samples.test_neg (0, 0) tt
     = ((0, -1), [EvCall "neg"; EvWrite c_stderr (test_passed_line "neg")], tt)
  /\ value_of (main Samples.sample_env (Some [Samples.test_neg]) tt) = 0.
Proof.
  split; [discriminate|]. split; reflexivity.
Qed.

(** C7 on a test that returns 1. *)
Lemma nonzero_count_is_failed_sample :
  0 <= value_of (t_fn Samples.test_b tt)
  /\ value_of (t_fn Samples.test_b tt) <> 0
  /\ value_of (run_test Samples.test_b (0, 0) tt) = (1, 1).
Proof.
  assert (Hcount : 0 <= value_of (t_fn Samples.test_b tt)).
  { vm_compute. discriminate. }
  assert (Hnonzero : value_of (t_fn Samples.test_b tt) <> 0).
  { vm_compute. discriminate. }
  destruct (nonzero_count_is_failed Samples.test_b 0 0 tt Hcount) as (Hfailed & _).
  destruct (Hfailed Hnonzero) as (Hvalue & _).
  split; [exact Hcount|]. split; [exact Hnonzero | exact Hvalue].
Defined.

(** C10 on a test that returns -1. *)
Lemma only_positive_return_is_failed_sample :
  value_of (t_fn Samples.test_neg tt) <= 0
  /\ value_of (run_test Samples.test_neg (5, 0) tt) = (5, -1).
Proof.
  assert (Hneg : value_of (t_fn Samples.test_neg tt) <= 0).
  { vm_compute. discriminate. }
  destruct (only_positive_return_is_failed Samples.test_neg 5 0 tt) as (Hpassed & _).
  destruct (Hpassed Hneg) as (Hvalue & _).
  split; [exact Hneg | exact Hvalue].
Defined.

(** ** Beyond the claims: the exit status *)

Section Status.

Context {G : Type} {libc : Libc}.

(** X1. When every test function that is called returns, the exit status of
    the process is 0 or 1, whatever the environment, the [TESTS] list and the
    values the tests return. *)
Theorem exit_status_is_0_or_1 (e : env) (TESTS : option (list (test G))) (g : G) :
  value_of (main e TESTS g) = 0 \/ value_of (main e TESTS g) = 1.
Proof.
  rewrite main_value. destruct TESTS as [ts|].
  - rewrite run_tests_defined. cbn [value_of fst].
    destruct (malloc_succeeds e); [|right; reflexivity].
    destruct (fst (value_of (run_all ts (0, 0) g)) >? 0); [right | left]; reflexivity.
  - right. reflexivity.
Qed.

(** X2. When [malloc] fails in [ctest__get_timestamp], a run of a defined
    [TESTS] list has called every test and printed the summary; then it
    writes the allocation error to [stderr] as its last event and ends the
    process with status 1, also when no test failed; it prints neither the
    start line nor the duration. *)
Theorem allocation_failure_ends_run (e : env) (ts : list (test G)) (g : G) :
  malloc_succeeds e = false ->
  value_of (ctest__run_tests e (Some ts) g) = Exit 1
  /\ value_of (main e (Some ts) g) = 1
  /\ calls (events_of (main e (Some ts) g)) = map t_name ts
  /\ exists (failed passed total : Z),
       stdout_writes (events_of (main e (Some ts) g))
       = (c_format banner_format [VInt total]
            :: stdout_writes (running_events ts g)
            ++ [LF; summary_line failed passed total])%list
       /\ exists before : list event,
            events_of (main e (Some ts) g)
            = (before
                 ++ [EvWrite c_stdout (summary_line failed passed total);
                     EvWrite c_stderr
                       ("ERROR: Could not allocate memory for timestamp!" ++ LF)])%list.
Proof.
  intros Hmalloc.
  rewrite main_value, main_events, run_tests_defined, Hmalloc.
  cbn [value_of events_of fst snd]. rewrite run_all_events.
  split; [reflexivity|]. split; [reflexivity|]. split.
  - cbn [calls]. rewrite calls_app, calls_running_events. cbn [calls]. apply app_nil_r.
  - do 3 eexists. split.
    + cbn [stdout_writes]. f_equal.
      induction (running_events ts g) as [|[name|[|] text] evs IH];
        cbn [app stdout_writes]; [reflexivity | exact IH | now rewrite IH | exact IH].
    + exists (EvWrite c_stdout (c_format banner_format [VInt (count_tests ts 0)])
                :: running_events ts g ++ [EvWrite c_stdout LF])%list.
      cbn [app]. f_equal. rewrite <- app_assoc. reflexivity.
Qed.

(** X3. The exit status is 0 only for a run that went all the way: [TESTS]
    was defined, the timestamp buffer was allocated, and no test of the
    registry returned a positive count. *)
Theorem exit_status_0_means_all_passed
    (e : env) (TESTS : option (list (test G))) (g : G) :
  value_of (main e TESTS g) = 0 ->
  (forall ts, TESTS = Some ts -> Z.of_nat (failed_tests ts g) <= INT_MAX) ->
  exists ts : list (test G),
    TESTS = Some ts
    /\ malloc_succeeds e = true
    /\ failed_tests ts g = 0%nat
    /\ Forall (fun r => r <= 0) (test_results ts g).
Proof.
  intros Hstatus Hmax. destruct TESTS as [ts|]; [|discriminate Hstatus].
  exists ts. specialize (Hmax ts eq_refl).
  rewrite main_value, run_tests_defined in Hstatus. cbn [value_of fst] in Hstatus.
  destruct (malloc_succeeds e); [|discriminate Hstatus].
  assert (Hf : fst (value_of (run_all ts (0, 0) g)) = Z.of_nat (failed_tests ts g)).
  { rewrite run_all_fail_count; lia. }
  rewrite Hf in Hstatus.
  assert (Hnone : failed_tests ts g = 0%nat).
  { destruct (Z.gtb_spec (Z.of_nat (failed_tests ts g)) 0); [discriminate Hstatus | lia]. }
  repeat split; try assumption.
  unfold failed_tests in Hnone. apply length_zero_iff_nil in Hnone.
  apply Forall_forall. intros r Hr.
  destruct (Z.gtb_spec r 0) as [Hpos|Hle]; [|exact Hle].
  assert (Hin : In r (filter (fun r => r >? 0) (test_results ts g))).
  { apply filter_In. split; [exact Hr|]. apply Z.gtb_lt. exact Hpos. }
  rewrite Hnone in Hin. destruct Hin.
Qed.

End Status.

(** ** Beyond the claims: generated tests *)

Lemma contains_append_l (sub a b : string) : contains sub a -> contains sub (a ++ b).
Proof.
  intros (pre & post & ->). exists pre, (post ++ b).
  now rewrite !append_assoc.
Qed.

Lemma contains_append_r (sub a b : string) : contains sub b -> contains sub (a ++ b).
Proof.
  intros (pre & post & ->). exists (a ++ pre), post.
  now rewrite !append_assoc.
Qed.

Lemma text_on_app (s : stream) (ws ws' : list write) :
  text_on s (ws ++ ws') = text_on s ws ++ text_on s ws'.
Proof.
  induction ws as [|[s' t] ws IH]; cbn [app text_on]; [reflexivity|].
  destruct s, s'; rewrite IH; try reflexivity; now rewrite append_assoc.
Qed.

Lemma nat_of_ascii_inj (x y : ascii) : nat_of_ascii x = nat_of_ascii y -> x = y.
Proof.
  intros H. rewrite <- (ascii_nat_embedding x), <- (ascii_nat_embedding y).
  now rewrite H.
Qed.

Lemma strcmp_no_nul (a : string) :
  forall b : string,
    no_nul a = true -> no_nul b = true -> (strcmp a b =? 0) = String.eqb a b.
Proof.
  induction a as [|x a IH]; intros [|y b] Ha Hb; cbn [strcmp String.eqb no_nul] in *.
  - reflexivity.
  - apply andb_true_iff in Hb. destruct Hb as [Hy _].
    apply negb_true_iff, Ascii.eqb_neq in Hy.
    apply Z.eqb_neq. intros H. apply Hy, nat_of_ascii_inj.
    change (nat_of_ascii zero) with 0%nat. lia.
  - apply andb_true_iff in Ha. destruct Ha as [Hx _].
    apply negb_true_iff, Ascii.eqb_neq in Hx.
    apply Z.eqb_neq. intros H. apply Hx, nat_of_ascii_inj.
    change (nat_of_ascii zero) with 0%nat. lia.
  - apply andb_true_iff in Ha, Hb. destruct Ha as [_ Ha], Hb as [_ Hb].
    destruct (Ascii.eqb_spec x y) as [->|Hxy].
    + apply IH; assumption.
    + apply Z.eqb_neq. intros H. apply Hxy, nat_of_ascii_inj. lia.
Qed.

Section Generated.

Context {G : Type} {libc : Libc}.

Lemma false_assertions_le_calls (body : list (stmt G)) :
  forall g : G, (false_assertions body g <= assertion_calls body)%nat.
Proof.
  induction body as [|[condition file line msg va | f] body IH]; intros g; simpl.
  - lia.
  - specialize (IH g). destruct (c_eval condition g); lia.
  - apply IH.
Qed.

(** X4. A test generated by [CTEST_TEST] returns a count that is never
    negative and never more than the number of assertion calls it made,
    where a body is the sequence of the assertion calls and the other code it
    runs through. *)
Theorem generated_count_is_bounded (name : string) (body : list (stmt G)) (g : G) :
  Z.of_nat (assertion_calls body) <= INT_MAX ->
  0 <= value_of (t_fn (CTEST_TEST name body) g) <= Z.of_nat (assertion_calls body).
Proof.
  intros Hmax. pose proof (false_assertions_le_calls body g) as Hle.
  cbn [CTEST_TEST t_fn]. rewrite exec_body_value by lia. lia.
Qed.

(** X5. The runner gives a test generated by [CTEST_TEST] the failed line,
    with the number of its false assertions, and counts it as failed exactly
    when at least one assertion of its body was false; otherwise the test
    gets the passed line and the count of failed tests stays. *)
Theorem generated_test_fails_iff_assertion_false
    (name : string) (body : list (stmt G)) (fc fa : Z) (g : G) :
  Z.of_nat (false_assertions body g) <= INT_MAX ->
  run_test (CTEST_TEST name body) (fc, fa) g
  = ((if Nat.eqb (false_assertions body g) 0 then fc else int_add fc 1,
      Z.of_nat (false_assertions body g)),
     (EvCall name :: written (t_fn (CTEST_TEST name body) g)
        ++ [if Nat.eqb (false_assertions body g) 0
            then EvWrite c_stderr (test_passed_line name)
            else EvWrite c_stderr
                   (test_failed_line name (Z.of_nat (false_assertions body g)))])%list,
     body_globals body g).
Proof.
  intros Hmax. rewrite run_test_eq.
  assert (Hv : value_of (t_fn (CTEST_TEST name body) g)
               = Z.of_nat (false_assertions body g)).
  { cbn [CTEST_TEST t_fn]. rewrite exec_body_value by lia. lia. }
  assert (Hg : globals_of (t_fn (CTEST_TEST name body) g) = body_globals body g).
  { apply exec_body_globals. }
  rewrite Hv, Hg. unfold verdict. cbn [t_name CTEST_TEST].
  destruct (false_assertions body g) as [|k]; cbn [Nat.eqb].
  - reflexivity.
  - destruct (Z.gtb_spec (Z.of_nat (S k)) 0); [reflexivity | lia].
Qed.

(** X7. Every assertion of a generated test that is false leaves its trace
    on [stderr]: the output of the test contains the file, the line and the
    name of the test function, [file:line -> test_name], and the text of the
    condition, [Assertion of 'text' failed]. *)
Theorem every_false_assertion_is_reported
    (name : string) (body : list (stmt G)) (g : G)
    (file : string) (line : Z) (text : string) :
  In (file, line, text) (failing_assertions body g) ->
  contains (file ++ ":" ++ dec line ++ " -> test_" ++ name)
    (text_on c_stderr (events_of (t_fn (CTEST_TEST name body) g)))
  /\ contains ("Assertion of '" ++ text ++ "' failed")
       (text_on c_stderr (events_of (t_fn (CTEST_TEST name body) g))).
Proof.
  cbn [CTEST_TEST t_fn]. generalize 0 as fa. revert g.
  induction body as [|[condition file' line' msg va | f] body IH]; intros g fa Hin.
  - destruct Hin.
  - rewrite exec_body_cons, events_of_bind, text_on_app, exec_stmt_assert.
    cbn [value_of events_of globals_of fst snd failing_assertions] in *.
    destruct (c_eval condition g).
    + split; apply contains_append_r; apply (IH g _ Hin).
    + destruct Hin as [Heq|Hin].
      * injection Heq as -> -> ->.
        rewrite diagnostic_text.
        split; apply contains_append_l.
        -- exists "âŒ ". eexists. rewrite !append_assoc. reflexivity.
        -- exists ("âŒ " ++ file ++ ":" ++ dec line ++ " -> "
                     ++ ("test_" ++ name) ++ LF ++ "ðŸ’¬ ").
           eexists. rewrite !append_assoc. reflexivity.
      * split; apply contains_append_r; apply (IH g _ Hin).
  - rewrite exec_body_cons, events_of_bind.
    cbn [exec_stmt value_of events_of globals_of fst snd failing_assertions app] in *.
    apply (IH (f g) _ Hin).
Qed.

(** X8. On strings without the terminator inside, [CTEST_ASSERT_EQ_STR]
    passes exactly when the two strings are equal: it adds one to the count
    of failed assertions when they differ and nothing when they are the
    same. *)
Theorem string_assertion_compares_strings
    (fn file : string) (line : Z) (a b : cexpr G string) (fa : Z) (g : G) :
  no_nul (c_eval a g) = true ->
  no_nul (c_eval b g) = true ->
  value_of (exec_stmt fn (CTEST_ASSERT_EQ_STR file line a b) fa g)
  = int_add fa (if String.eqb (c_eval a g) (c_eval b g) then 0 else 1)
  /\ (events_of (exec_stmt fn (CTEST_ASSERT_EQ_STR file line a b) fa g) = []
      <-> c_eval a g = c_eval b g).
Proof.
  intros Ha Hb.
  unfold CTEST_ASSERT_EQ_STR, CTEST_ASSERT. rewrite exec_stmt_assert.
  cbn [value_of events_of fst snd cond_eq_str c_eval c_text].
  rewrite (strcmp_no_nul _ _ Ha Hb).
  destruct (String.eqb_spec (c_eval a g) (c_eval b g)) as [Heq|Hne].
  - split; [reflexivity|]. split; [intros _; exact Heq | reflexivity].
  - split; [reflexivity|]. split; [discriminate | intros H; contradiction].
Qed.

End Generated.

(** ** Beyond the claims: the running pass and the report *)

Lemma two_digits_digits (n : Z) :
  0 <= n < 100 ->
  two_digits n = String (digit (n / 10)) (String (digit (n mod 10)) EmptyString).
Proof.
  intros Hn. rewrite <- (Z2Nat.id n) by lia.
  assert (Hk : (Z.to_nat n < 100)%nat) by lia.
  generalize dependent (Z.to_nat n). clear n Hn. intros k Hk.
  do 100 (destruct k as [|k]; [reflexivity|]). lia.
Qed.

Lemma stdout_writes_app (evs evs' : list event) :
  stdout_writes (evs ++ evs') = (stdout_writes evs ++ stdout_writes evs')%list.
Proof.
  induction evs as [|[name|[|] text] evs IH]; cbn [app stdout_writes];
    [reflexivity | exact IH | now rewrite IH | exact IH].
Qed.

Section Pass.

Context {G : Type} {libc : Libc}.

Lemma stdout_writes_written {A : Type} (r : A * list write * G) :
  stdout_writes (written r) = stdout_texts (events_of r).
Proof.
  unfold written.
  induction (events_of r) as [|[[|] t] ws IH];
    cbn [map stdout_writes stdout_texts fst snd]; [reflexivity | now rewrite IH | exact IH].
Qed.

Lemma stdout_writes_running (ts : list (test G)) :
  forall g : G, stdout_writes (running_events ts g) = tests_stdout ts g.
Proof.
  induction ts as [|t ts IH]; intros g.
  - reflexivity.
  - cbn [running_events tests_stdout].
    rewrite stdout_writes_app. cbn [stdout_writes].
    rewrite stdout_writes_app, stdout_writes_written, IH.
    unfold verdict. destruct (_ >? 0); cbn [stdout_writes]; now rewrite app_nil_r.
Qed.

(** X11. The banner announces the number of entries of the registry, the
    summary shows the same number as its total, and the failed and passed
    numbers of the summary are not negative and add up to that total. *)
Theorem report_counts_are_consistent (e : env) (ts : list (test G)) (g : G) :
  Z.of_nat (length ts) <= INT_MAX ->
  exists (failed passed : Z) (rest : list event),
    events_of (ctest__run_tests e (Some ts) g)
    = (EvWrite c_stdout (c_format banner_format [VInt (Z.of_nat (length ts))])
         :: running_events ts g
         ++ EvWrite c_stdout LF
         :: EvWrite c_stdout (summary_line failed passed (Z.of_nat (length ts)))
         :: rest)%list
    /\ 0 <= failed
    /\ 0 <= passed
    /\ failed + passed = Z.of_nat (length ts).
Proof.
  intros Hmax. pose proof (failed_tests_le_length ts g) as Hle.
  exists (Z.of_nat (failed_tests ts g)),
         (Z.of_nat (length ts) - Z.of_nat (failed_tests ts g)).
  eexists. split; [|lia].
  rewrite run_tests_defined. cbn [events_of fst snd].
  rewrite run_all_events, count_tests_length by lia.
  rewrite run_all_fail_count by lia.
  rewrite int_sub_small by (unfold INT_MIN, INT_MAX in *; lia).
  reflexivity.
Qed.

(** X12. Of its own the runner writes to [stdout] the banner and the four
    lines of the report, and nothing else: what a run puts on [stdout] is the
    banner, then what the test functions wrote there, test after test in the
    order of the registry, then the empty line, the summary, the start line
    and the duration. The calls and the lines of the verdicts add nothing to
    [stdout]. *)
Theorem runner_adds_only_the_report_to_stdout
    (e : env) (ts : list (test G)) (g : G) :
  malloc_succeeds e = true ->
  Z.of_nat (length ts) <= INT_MAX ->
  stdout_writes (events_of (main e (Some ts) g))
  = (c_format banner_format [VInt (Z.of_nat (length ts))]
       :: tests_stdout ts g
       ++ [LF;
           summary_line (Z.of_nat (failed_tests ts g))
             (Z.of_nat (length ts) - Z.of_nat (failed_tests ts g))
             (Z.of_nat (length ts));
           c_format start_at_format
             [VStr (strftime_HMS (localtime e (time_at_stamp e)))];
           c_format duration_format [VInt (time_at_end e - time_at_start e)]])%list.
Proof.
  intros Hmalloc Hmax. pose proof (failed_tests_le_length ts g) as Hle.
  rewrite main_events, run_tests_defined, Hmalloc. cbn [events_of fst snd].
  rewrite run_all_events, count_tests_length by lia.
  rewrite run_all_fail_count by lia.
  rewrite int_sub_small by (unfold INT_MIN, INT_MAX in *; lia).
  cbn [stdout_writes]. rewrite stdout_writes_app, stdout_writes_running.
  reflexivity.
Qed.

(** X13. When the buffer is allocated, [ctest__get_timestamp] writes
    nothing, leaves the globals and returns the local time of the clock it
    reads as [HH:MM:SS]: the tens and the units of the hour, a colon, those
    of the minute, a colon, those of the second. These are 8 characters,
    which with the terminator fill the 9 bytes of the buffer. *)
Theorem timestamp_is_HH_MM_SS (e : env) (g : G) :
  let t := localtime e (time_at_stamp e) in
  malloc_succeeds e = true ->
  0 <= tm_hour t < 100 ->
  0 <= tm_min t < 100 ->
  0 <= tm_sec t < 100 ->
  ctest__get_timestamp e g
  = (Normal
       (String (digit (tm_hour t / 10)) (String (digit (tm_hour t mod 10))
       (String ":"
       (String (digit (tm_min t / 10)) (String (digit (tm_min t mod 10))
       (String ":"
       (String (digit (tm_sec t / 10)) (String (digit (tm_sec t mod 10))
        EmptyString)))))))),
     [], g)
  /\ (String.length (strftime_HMS t) + 1 = 9)%nat.
Proof.
  cbv zeta. intros Hmalloc Hh Hm Hs.
  unfold ctest__get_timestamp, strftime_HMS. rewrite Hmalloc.
  rewrite !two_digits_digits by assumption.
  split; reflexivity.
Qed.

(** X14. The clock read before the tests enters the report through the
    duration only: a run whose clocks at the start and at the end are both
    later by [d] is the same run, event for event. The time of the start line
    is the one [ctest__get_timestamp] reads while reporting. *)
Theorem report_uses_elapsed_time_only
    (e : env) (TESTS : option (list (test G))) (g : G) (d : Z) :
  main (with_clocks e (time_at_start e + d) (time_at_end e + d)) TESTS g
  = main e TESTS g.
Proof.
  unfold main, bind. destruct TESTS as [ts|]; [|reflexivity].
  rewrite !run_tests_defined.
  cbn [with_clocks malloc_succeeds time_at_stamp time_at_start time_at_end localtime].
  replace (time_at_end e + d - (time_at_start e + d))
    with (time_at_end e - time_at_start e) by lia.
  reflexivity.
Qed.

End Pass.

(** C8 as the specification states it fails on operands that hold a macro:
    with [#define EXPECTED 2] and [x] equal to 1, the diagnostic of
    [CTEST_ASSERT_EQ(x, EXPECTED)] shows the condition [(x) == (2)], that of
    [CTEST_ASSERT((x) == (EXPECTED))] shows [(x) == (EXPECTED)]. *)
Lemma wrapper_shows_expanded_operands :
  exec_stmt "test_m"
    (CTEST_ASSERT_EQ Z.eqb "sample.c" 50 Samples.operand_x Samples.operand_EXPECTED) 0 tt
  <> exec_stmt "test_m"
       (CTEST_ASSERT "sample.c" 50
          (written_eq Z.eqb Samples.operand_x Samples.operand_EXPECTED)) 0 tt
  /\ text_on c_stderr
       (events_of
          (exec_stmt "test_m"
             (CTEST_ASSERT_EQ Z.eqb "sample.c" 50
                Samples.operand_x Samples.operand_EXPECTED) 0 tt))
     = diagnostic_of "sample.c" 50 "test_m" "(x) == (2)" ""
  /\ text_on c_stderr
       (events_of
          (exec_stmt "test_m"
             (CTEST_ASSERT "sample.c" 50
                (written_eq Z.eqb Samples.operand_x Samples.operand_EXPECTED)) 0 tt))
     = diagnostic_of "sample.c" 50 "test_m" "(x) == (EXPECTED)" "".
Proof.
  split; [|split; reflexivity].
  intros H.
  apply (f_equal (fun r => occursb "EXPECTED" (text_on c_stderr (events_of r)))) in H.
  vm_compute in H. discriminate H.
Qed.

(** C8 on operands without a macro: wrapper and base assertion do the same. *)
Lemma equality_wrappers_have_the_outcome_of_base_assertions_sample :
  c_expanded Samples.operand_x = c_text Samples.operand_x
  /\ exec_stmt "test_m"
       (CTEST_ASSERT_EQ Z.eqb "sample.c" 50 Samples.operand_x Samples.operand_x) 0 tt
     = exec_stmt "test_m"
         (CTEST_ASSERT "sample.c" 50
            (written_eq Z.eqb Samples.operand_x Samples.operand_x)) 0 tt
  /\ same_outcome
       (exec_stmt "test_m"
          (CTEST_ASSERT_EQ Z.eqb "sample.c" 50
             Samples.operand_x Samples.operand_EXPECTED) 0 tt)
       (exec_stmt "test_m"
          (CTEST_ASSERT "sample.c" 50
             (written_eq Z.eqb Samples.operand_x Samples.operand_EXPECTED)) 0 tt).
Proof.
  split; [reflexivity|]. split.
  - destruct (equality_wrappers_have_the_outcome_of_base_assertions
                Z Z.eqb "sample.c" 50 Samples.operand_x Samples.operand_x
                (mk_cexpr "s" "s" (fun _ => "a")) (mk_cexpr "s" "s" (fun _ => "a"))
                "" (fun _ => va_none) "test_m" 0 tt)
      as (_ & _ & _ & Hsame & _).
    destruct (Hsame eq_refl eq_refl) as (Heq & _). exact Heq.
  - destruct (equality_wrappers_have_the_outcome_of_base_assertions
                Z Z.eqb "sample.c" 50 Samples.operand_x Samples.operand_EXPECTED
                (mk_cexpr "s" "s" (fun _ => "a")) (mk_cexpr "s" "s" (fun _ => "a"))
                "" (fun _ => va_none) "test_m" 0 tt)
      as ((Hsame & _) & _).
    exact Hsame.
Defined.

(** ** The further properties on the sample programs *)

(** X2 on a run of one passing test without memory for the timestamp. *)
Lemma allocation_failure_ends_run_sample :
  malloc_succeeds Faults.no_memory = false
  /\ failed_tests [Samples.test_a] tt = 0%nat
  /\ value_of (ctest__run_tests Faults.no_memory (Some [Samples.test_a]) tt) = Exit 1
  /\ value_of (main Faults.no_memory (Some [Samples.test_a]) tt) = 1.
Proof.
  destruct (allocation_failure_ends_run Faults.no_memory [Samples.test_a] tt eq_refl)
    as (Hrun & Hmain & _).
  split; [reflexivity|]. split; [reflexivity|]. split; [exact Hrun | exact Hmain].
Defined.

(** X3 on a run of one passing test. *)
Lemma exit_status_0_means_all_passed_sample :
  value_of (main Samples.sample_env (Some [Samples.test_a]) tt) = 0
  /\ exists ts : list (test Samples.no_globals),
       Some [Samples.test_a] = Some ts
       /\ malloc_succeeds Samples.sample_env = true
       /\ failed_tests ts tt = 0%nat
       /\ Forall (fun r => r <= 0) (test_results ts tt).
Proof.
  split; [reflexivity|].
  apply (exit_status_0_means_all_passed
           Samples.sample_env (Some [Samples.test_a]) tt eq_refl).
  intros ts Hts. injection Hts as <-. vm_compute. discriminate.
Defined.

(** X4 on the body of three failing assertions. *)
Lemma generated_count_is_bounded_sample :
  Z.of_nat (assertion_calls Samples.three_failures) <= INT_MAX
  /\ 0 <= value_of (t_fn (CTEST_TEST "three" Samples.three_failures) tt) <= 3.
Proof.
  assert (Hmax : Z.of_nat (assertion_calls Samples.three_failures) <= INT_MAX).
  { vm_compute. discriminate. }
  split; [exact Hmax|].
  exact (generated_count_is_bounded "three" Samples.three_failures tt Hmax).
Defined.

(** X5 on the body of three failing assertions. *)
Lemma generated_test_fails_iff_assertion_false_sample :
  Z.of_nat (false_assertions Samples.three_failures tt) <= INT_MAX
  /\ value_of (run_test (CTEST_TEST "three" Samples.three_failures) (0, 0) tt) = (1, 3).
Proof.
  assert (Hmax : Z.of_nat (false_assertions Samples.three_failures tt) <= INT_MAX).
  { vm_compute. discriminate. }
  split; [exact Hmax|].
  rewrite (generated_test_fails_iff_assertion_false
             "three" Samples.three_failures 0 0 tt Hmax).
  reflexivity.
Defined.

(** X7 on the first assertion of the body of three failing assertions. *)
Lemma every_false_assertion_is_reported_sample :
  In ("sample.c", 30, "1 + 1 == 3") (failing_assertions Samples.three_failures tt)
  /\ contains ("sample.c:30 -> test_three")
       (text_on c_stderr
          (events_of (t_fn (CTEST_TEST "three" Samples.three_failures) tt)))
  /\ contains ("Assertion of '1 + 1 == 3' failed")
       (text_on c_stderr
          (events_of (t_fn (CTEST_TEST "three" Samples.three_failures) tt))).
Proof.
  assert (Hin : In ("sample.c", 30, "1 + 1 == 3")
                  (failing_assertions Samples.three_failures tt)).
  { left. reflexivity. }
  split; [exact Hin|].
  exact (every_false_assertion_is_reported
           "three" Samples.three_failures tt "sample.c" 30 "1 + 1 == 3" Hin).
Defined.

(** X8 on two strings that differ in their last byte. *)
Lemma string_assertion_compares_strings_sample :
  no_nul "abc" = true
  /\ no_nul "abd" = true
  /\ value_of
    (exec_stmt "test_s"
       (CTEST_ASSERT_EQ_STR "sample.c" 32
          (mk_cexpr "name" "name" (fun _ : Samples.no_globals => "abc"))
          (mk_cexpr "other" "other" (fun _ : Samples.no_globals => "abd")))
       0 tt)
  = 1.
Proof.
  destruct (string_assertion_compares_strings
              "test_s" "sample.c" 32
              (mk_cexpr "name" "name" (fun _ : Samples.no_globals => "abc"))
              (mk_cexpr "other" "other" (fun _ : Samples.no_globals => "abd"))
              0 tt eq_refl eq_refl)
    as (Hvalue & _).
  split; [reflexivity|]. split; [reflexivity | exact Hvalue].
Defined.

(** X11 on the sample registry. *)
Lemma report_counts_are_consistent_sample :
  Z.of_nat (length Samples.registry_abc) <= INT_MAX
  /\ exists (failed passed : Z) (rest : list event),
       events_of (ctest__run_tests Samples.sample_env (Some Samples.registry_abc) tt)
       = (EvWrite c_stdout (c_format banner_format [VInt 3])
            :: running_events Samples.registry_abc tt
            ++ EvWrite c_stdout LF
            :: EvWrite c_stdout (summary_line failed passed 3)
            :: rest)%list
       /\ 0 <= failed
       /\ 0 <= passed
       /\ failed + passed = 3.
Proof.
  assert (Hmax : Z.of_nat (length Samples.registry_abc) <= INT_MAX).
  { vm_compute. discriminate. }
  split; [exact Hmax|].
  exact (report_counts_are_consistent
           Samples.sample_env Samples.registry_abc tt Hmax).
Defined.

(** X12 on a registry with a test that prints to [stdout] itself. *)
Lemma runner_adds_only_the_report_to_stdout_sample :
  malloc_succeeds Samples.sample_env = true
  /\ Z.of_nat (length [Faults.test_chatty; Samples.test_b]) <= INT_MAX
  /\ stdout_writes
       (events_of (main Samples.sample_env
                     (Some [Faults.test_chatty; Samples.test_b]) tt))
     = [c_format banner_format [VInt 2];
        "hello";
        LF;
        summary_line 1 1 2;
        c_format start_at_format [VStr "09:05:30"];
        c_format duration_format [VInt 3]].
Proof.
  assert (Hmax : Z.of_nat (length [Faults.test_chatty; Samples.test_b]) <= INT_MAX).
  { vm_compute. discriminate. }
  split; [reflexivity|]. split; [exact Hmax|].
  exact (runner_adds_only_the_report_to_stdout
           Samples.sample_env [Faults.test_chatty; Samples.test_b] tt eq_refl Hmax).
Defined.

(** X13 on the sample environment, whose local time is 09:05:30. *)
Lemma timestamp_is_HH_MM_SS_sample :
  malloc_succeeds Samples.sample_env = true
  /\ ctest__get_timestamp Samples.sample_env tt = (Normal "09:05:30", [], tt).
Proof.
  split; [reflexivity|].
  apply (timestamp_is_HH_MM_SS Samples.sample_env tt eq_refl);
    (split; [vm_compute; discriminate | reflexivity]).
Defined.
